(** * Gaia admin dashboard: data model, cache, filters, search and export

    A shallow embedding of [admin_dashboard.py].  The script is a Streamlit
    page: two cached bulk queries ([load_users], [load_conversations]) feed
    four views (overview, users, conversations, search) that count, filter
    and project the documents held in memory.

    Documents are the dictionaries decoded from the store.  Each field the
    script reads is an [option]: [None] is an absent key, [Some v] a key
    holding a value of the type the data model gives to that field, so
    [d.get(k, dflt)] is [default dflt (k d)] and [d.get(k)] is [k d].

    Text is held as its UTF-8 bytes.  [str.lower], which the searches call
    on both sides of every comparison, is the interpreter's; it is taken as
    a parameter ([Py.Lower]) and every statement about a search holds for
    whatever lowering stands behind it. *)

From Stdlib Require Import ZArith Ascii String List Bool Lia.
From Stdlib Require Import Sorted Permutation OrderedTypeEx.
From stdpp Require Import base option list gmap strings fin_maps pretty.
Import ListNotations.

Local Open Scope string_scope.
Local Open Scope list_scope.

(** ** Python primitives used by the script *)

Module Py.

(** Strings are the UTF-8 bytes of the text; on well-formed text the
    blocks, the equality and the order of the bytes are those of the code
    points. *)

(** Lower-casing of the ASCII letters, the other bytes left as they are. *)
Definition ascii_lower_char (c : ascii) : ascii :=
  let n := nat_of_ascii c in
  if (65 <=? n)%nat && (n <=? 90)%nat then ascii_of_nat (n + 32) else c.

Fixpoint ascii_lower (s : string) : string :=
  match s with
  | EmptyString => EmptyString
  | String c s' => String (ascii_lower_char c) (ascii_lower s')
  end.

(** The text has ASCII characters only. *)
Fixpoint is_ascii (s : string) : bool :=
  match s with
  | EmptyString => true
  | String c s' => (nat_of_ascii c <? 128)%nat && is_ascii s'
  end.

(** [str.lower] follows the Unicode character database of the interpreter,
    with its special cases (an accented capital, the final sigma, a
    character that lowers to two); the table is not part of the script, so
    the function is a parameter.  What is used of it: only the empty
    string lowers to the empty string, and on a text of ASCII characters
    it lowers the letters A to Z and nothing else. *)
Class Lower := {
  lower : string -> string;
  lower_empty : forall s, lower s = EmptyString <-> s = EmptyString;
  lower_ascii : forall s, is_ascii s = true -> lower s = ascii_lower s
}.

(** The lowering that knows the ASCII letters only: it is [str.lower] on
    ASCII text, and serves to compute the examples. *)
Definition ascii_lowering : Lower :=
  {| lower := ascii_lower;
     lower_empty :=
       fun s =>
         match s as s0 return ascii_lower s0 = EmptyString <-> s0 = EmptyString with
         | EmptyString => conj (fun _ => eq_refl) (fun _ => eq_refl)
         | String c s' =>
             conj (fun H : String (ascii_lower_char c) (ascii_lower s') = EmptyString =>
                     match H in _ = t
                           return match t with
                                  | EmptyString => String c s' = EmptyString
                                  | String _ _ => True
                                  end
                     with eq_refl => I end)
                  (fun H : String c s' = EmptyString =>
                     match H in _ = t
                           return match t with
                                  | EmptyString =>
                                      String (ascii_lower_char c) (ascii_lower s')
                                      = EmptyString
                                  | String _ _ => True
                                  end
                     with eq_refl => I end)
         end;
     lower_ascii := fun s _ => eq_refl |}.

(** [sub in s] on strings: [sub] occurs in [s] as a contiguous block. *)
Fixpoint str_in (sub s : string) : bool :=
  String.prefix sub s ||
  match s with
  | EmptyString => false
  | String _ s' => str_in sub s'
  end.

(** Truth value of a string ([if search_term:]). *)
Definition truthy (s : string) : bool :=
  match s with EmptyString => false | String _ _ => true end.

(** [d.get(k) == s] for a string field: a missing key gives [None], which
    is equal to no string. *)
Definition eq_str (field : option string) (s : string) : bool :=
  match field with
  | None => false
  | Some v => String.eqb v s
  end.

(** [sum(xs)]: left to right from 0. *)
Definition sum (xs : list nat) : nat := fold_left Nat.add xs 0.

(** [d.get(k, 0)] on a dictionary of counters. *)
Definition get_count (d : gmap string nat) (k : string) : nat :=
  default 0 (d !! k).

(** [len(xs)] as an integer. *)
Definition len {A} (xs : list A) : Z := Z.of_nat (length xs).

End Py.

(** ** Documents *)

Module Message.
Record t := mk { content : option string; isUser : option bool }.
End Message.

Module Conversation.
Record t := mk {
  id : option string;
  userId : option string;
  title : option string;
  createdAt : option string;
  updatedAt : option string;
  messages : option (list Message.t)
}.
End Conversation.

Module User.
Record t := mk {
  id : option string;
  email : option string;
  firstName : option string;
  lastName : option string;
  plan : option string;
  is_verified : option bool;
  createdAt : option string;
  daily_requests : option Z
}.
End User.

(** ** Overview page: aggregate statistics *)

Module Overview.

(** [sum(1 for u in users if u.get('is_verified', False))] *)
Definition verified_users (users : list User.t) : nat :=
  Py.sum (map (fun _ => 1%nat)
              (List.filter (fun u => default false (User.is_verified u)) users)).

(** [sum(len(c.get('messages', [])) for c in conversations)] *)
Definition total_messages (conversations : list Conversation.t) : nat :=
  Py.sum (map (fun c => length (default [] (Conversation.messages c)))
              conversations).

(** One turn of the histogram loop:
    [plan = user.get('plan', 'unknown')],
    [plan_counts[plan] = plan_counts.get(plan, 0) + 1]. *)
Definition count_plan (plan_counts : gmap string nat) (user : User.t)
  : gmap string nat :=
  let plan := default "unknown" (User.plan user) in
  <[plan := (Py.get_count plan_counts plan + 1)%nat]> plan_counts.

(** [plan_counts = {}] followed by the loop over [users]. *)
Definition plan_counts (users : list User.t) : gmap string nat :=
  fold_left count_plan users ∅.

(** The numbers shown by the four cards and the plan chart. *)
Record stats := mk_stats {
  n_users : nat;
  n_verified : nat;
  n_conversations : nat;
  n_messages : nat;
  plans : gmap string nat
}.

Definition statistics (users : list User.t)
    (conversations : list Conversation.t) : stats :=
  {| n_users := length users;
     n_verified := verified_users users;
     n_conversations := length conversations;
     n_messages := total_messages conversations;
     plans := plan_counts users |}.

End Overview.

(** ** Users page: filters and exports *)

Module UsersPage.

(** Choices of the plan select box:
    [["Tous"] + list(set(u.get('plan', 'unknown') for u in users))].
    The order in which a set is listed is not fixed by the language. *)
Definition plan_options (users : list User.t) : list string :=
  "Tous" ::
  elements (list_to_set (map (fun u => default "unknown" (User.plan u)) users)
            : gset string).

(** The two filters, applied one after the other. *)
Definition filtered_users (filter_plan filter_verified : string)
    (users : list User.t) : list User.t :=
  let filtered_users := users in
  let filtered_users :=
    if negb (String.eqb filter_plan "Tous")
    then List.filter (fun u => Py.eq_str (User.plan u) filter_plan) filtered_users
    else filtered_users in
  let filtered_users :=
    if String.eqb filter_verified "Vérifiés"
    then List.filter (fun u => default false (User.is_verified u)) filtered_users
    else if String.eqb filter_verified "Non vérifiés"
    then List.filter (fun u => negb (default false (User.is_verified u)))
                     filtered_users
    else filtered_users in
  filtered_users.

(** A spreadsheet cell: text, or the daily request counter. *)
Inductive cell := Text (s : string) | Number (n : Z).

(** A row is the dictionary literal of the script; its keys are kept in the
    order they are written, which is the order of the sheet's columns. *)
Definition row := list (string * cell).

Definition columns (r : row) : list string := map fst r.

Fixpoint cell_of (column : string) (r : row) : option cell :=
  match r with
  | [] => None
  | (k, v) :: r' => if String.eqb k column then Some v else cell_of column r'
  end.

Definition export_row (user : User.t) : row :=
  [ ("Email", Text (default "N/A" (User.email user)));
    ("Plan", Text (default "N/A" (User.plan user)));
    ("Prénom", Text (default "N/A" (User.firstName user)));
    ("Nom", Text (default "N/A" (User.lastName user)));
    ("Vérifié", Text (if default false (User.is_verified user)
                      then "Oui" else "Non"));
    ("Créé le", Text (default "N/A" (User.createdAt user)));
    ("Requêtes quotidiennes", Number (default 0%Z (User.daily_requests user))) ].

(** [export_data = []], then one [append] per user. *)
Definition export_data (filtered_users : list User.t) : list row :=
  fold_left (fun export_data user => export_data ++ [export_row user])
            filtered_users [].

Definition simple_row (user : User.t) : row :=
  [ ("Email", Text (default "N/A" (User.email user)));
    ("Plan", Text (default "N/A" (User.plan user))) ].

Definition simple_data (filtered_users : list User.t) : list row :=
  map simple_row filtered_users.

End UsersPage.

(** ** Conversations page *)

Module ConversationsPage.

(** The two filters, applied one after the other; [min_messages] comes from
    a number input. *)
Definition filtered_convs {L : Py.Lower} (search_term : string)
    (min_messages : Z) (conversations : list Conversation.t)
  : list Conversation.t :=
  let filtered_convs := conversations in
  let filtered_convs :=
    if Py.truthy search_term
    then List.filter
           (fun c => Py.str_in (Py.lower search_term)
                               (Py.lower (default "" (Conversation.title c))))
           filtered_convs
    else filtered_convs in
  let filtered_convs :=
    if (0 <? min_messages)%Z
    then List.filter
           (fun c => (min_messages <=?
                      Py.len (default [] (Conversation.messages c)))%Z)
           filtered_convs
    else filtered_convs in
  filtered_convs.

(** [title = conv.get('title', 'Sans titre')]: the title shown for a
    conversation in every list of the dashboard. *)
Definition display_title (conv : Conversation.t) : string :=
  default "Sans titre" (Conversation.title conv).

End ConversationsPage.

(** ** Search page *)

Module SearchPage.

Definition email_matches {L : Py.Lower} (search_email : string) (u : User.t)
  : bool :=
  Py.str_in (Py.lower search_email) (Py.lower (default "" (User.email u))).

(** User search: [results = []], then the [if]/[elif] on the two inputs. *)
Definition search_users {L : Py.Lower} (search_email search_user_id : string)
    (users : list User.t) : list User.t :=
  if Py.truthy search_email
  then List.filter (email_matches search_email) users
  else if Py.truthy search_user_id
  then List.filter (fun u => Py.eq_str (User.id u) search_user_id) users
  else [].

Definition content_matches {L : Py.Lower} (search_keyword : string)
    (msg : Message.t) : bool :=
  Py.str_in (Py.lower search_keyword)
            (Py.lower (default "" (Message.content msg))).

(** The inner loop over the messages of [conv]: at the first message that
    matches, [conv] is appended to [results] and the loop is left. *)
Fixpoint scan_messages {L : Py.Lower} (search_keyword : string)
    (conv : Conversation.t)
    (messages : list Message.t) (results : list Conversation.t)
  : list Conversation.t :=
  match messages with
  | [] => results
  | msg :: messages' =>
      if content_matches search_keyword msg
      then results ++ [conv]
      else scan_messages search_keyword conv messages' results
  end.

(** The outer loop over the snapshot. *)
Definition keyword_search {L : Py.Lower} (search_keyword : string)
    (conversations : list Conversation.t) : list Conversation.t :=
  fold_left
    (fun results conv =>
       scan_messages search_keyword conv
                     (default [] (Conversation.messages conv)) results)
    conversations [].

(** Conversation search: [results = []], then the [if]/[elif]. *)
Definition search_conversations {L : Py.Lower}
    (search_conv_id search_keyword : string)
    (conversations : list Conversation.t) : list Conversation.t :=
  if Py.truthy search_conv_id
  then List.filter (fun c => Py.eq_str (Conversation.id c) search_conv_id)
                   conversations
  else if Py.truthy search_keyword
  then keyword_search search_keyword conversations
  else [].

End SearchPage.

(** ** Store and cache *)

(** What a call gives back: a value, or a raised exception with its text. *)
Inductive result (A : Type) : Type :=
| Ok (value : A)
| Raise (message : string).
Arguments Ok {A} value.
Arguments Raise {A} message.

Module Store.

(** The state of the document store at the time of a call: what each of
    the two bulk queries answers then (a connection that cannot be opened
    or a query that fails is a [Raise]). *)
Record t := mk {
  users : result (list User.t);
  conversations : result (list Conversation.t)
}.

(** The queries the script can send. *)
Inductive query := AllUsers | AllConversations.

End Store.

Module Cache.

(** [@st.cache_data(ttl=60)]: the time to live, in seconds. *)
Definition ttl : Z := 60.

(** A memoised return value with the clock reading at which it was stored. *)
Record entry (A : Type) := mk_entry { value : A; stored : Z }.
Arguments mk_entry {A} value stored.
Arguments value {A} e.
Arguments stored {A} e.

(** An entry is served while the clock is before [stored + ttl]. *)
Definition fresh {A} (now : Z) (e : entry A) : bool :=
  (now <? stored e + ttl)%Z.

Definition lookup {A} (now : Z) (slot : option (entry A)) : option A :=
  match slot with
  | Some e => if fresh now e then Some (value e) else None
  | None => None
  end.

(** The decorator around a function without arguments, as Streamlit
    documents it: a stored return value is handed out until its time to
    live is over.  On a hit the function is not called.  On a miss (no
    entry, or an expired one) it is called; a returned value is stored with
    the current clock reading, a raised exception goes to the caller and
    nothing is stored.  The last component lists the queries sent on the
    way. *)
Definition cache_data {A} (now : Z) (slot : option (entry A))
    (func : unit -> result A * list Store.query)
  : result A * option (entry A) * list Store.query :=
  match lookup now slot with
  | Some v => (Ok v, slot, [])
  | None =>
      let '(r, sent) := func tt in
      match r with
      | Ok v => (Ok v, Some (mk_entry v now), sent)
      | Raise e => (Raise e, slot, sent)
      end
  end.

(** One slot per decorated function. *)
Record t := mk {
  users : option (entry (list User.t));
  conversations : option (entry (list Conversation.t))
}.

(** [st.cache_data.clear()] *)
Definition clear (c : t) : t := mk None None.

End Cache.

(** Body of [load_users]: one cross-partition query on the users container. *)
Definition query_users (db : Store.t)
  : result (list User.t) * list Store.query :=
  (Store.users db, [Store.AllUsers]).

(** Body of [load_conversations]. *)
Definition query_conversations (db : Store.t)
  : result (list Conversation.t) * list Store.query :=
  (Store.conversations db, [Store.AllConversations]).

Definition load_users (now : Z) (db : Store.t) (c : Cache.t)
  : result (list User.t) * Cache.t * list Store.query :=
  let '(r, slot, sent) :=
    Cache.cache_data now (Cache.users c) (fun _ => query_users db) in
  (r, Cache.mk slot (Cache.conversations c), sent).

Definition load_conversations (now : Z) (db : Store.t) (c : Cache.t)
  : result (list Conversation.t) * Cache.t * list Store.query :=
  let '(r, slot, sent) :=
    Cache.cache_data now (Cache.conversations c)
                     (fun _ => query_conversations db) in
  (r, Cache.mk (Cache.users c) slot, sent).

(** What the overview page shows: the statistics, or the message of the
    [except] branch. *)
Inductive overview_view :=
| Statistics (s : Overview.stats)
| ErrorMessage (text : string).

(** The [try] block of the overview page, with its
    [except Exception as e: st.error(...)]: the two loads, then the
    statistics.  [now] and [db] are the clock and the store of that run of
    the page.  The list of recent conversations drawn after the chart only
    formats fields of the loaded documents and is left out of the view. *)
Definition overview_page (now : Z) (db : Store.t) (c : Cache.t)
  : overview_view * Cache.t * list Store.query :=
  let '(r1, c1, sent1) := load_users now db c in
  match r1 with
  | Raise e =>
      (ErrorMessage ("❌ Erreur lors du chargement des données: " +:+ e),
       c1, sent1)
  | Ok users =>
      let '(r2, c2, sent2) := load_conversations now db c1 in
      match r2 with
      | Raise e =>
          (ErrorMessage ("❌ Erreur lors du chargement des données: " +:+ e),
           c2, sent1 ++ sent2)
      | Ok conversations =>
          (Statistics (Overview.statistics users conversations),
           c2, sent1 ++ sent2)
      end
  end.

(** ** Vocabulary of the statements *)

(** Sum of the counts held in a histogram. *)
Definition histogram_total (h : gmap string nat) : nat :=
  map_fold (fun _ n acc => (n + acc)%nat) 0%nat h.

(** Number of elements of [l] on which [p] holds. *)
Definition count_if {A} (p : A -> bool) (l : list A) : nat :=
  length (List.filter p l).

Definition plan_absent (u : User.t) : bool :=
  match User.plan u with None => true | Some _ => false end.

Definition plan_is (p : string) (u : User.t) : bool :=
  match User.plan u with None => false | Some q => String.eqb q p end.

(** All messages of a snapshot, conversation after conversation. *)
Definition all_messages (conversations : list Conversation.t) : list Message.t :=
  concat (map (fun c => default [] (Conversation.messages c)) conversations).

(** [term] occurs in [text] when case is ignored, the way the script tests
    it: the term lowered by [str.lower] is a block of the text lowered by
    [str.lower]. *)
Definition contains_ci {L : Py.Lower} (term text : string) : Prop :=
  exists before after, Py.lower text = before +:+ Py.lower term +:+ after.


(** The conversation has a message on which the keyword test succeeds. *)
Definition has_match {L : Py.Lower} (search_keyword : string)
    (conv : Conversation.t) : bool :=
  existsb (SearchPage.content_matches search_keyword)
          (default [] (Conversation.messages conv)).

(** ** Sample documents *)

Definition sample_user (email plan : option string) (verified : option bool)
  : User.t :=
  User.mk (Some "u-1") email None None plan verified None None.

Definition sample_conversation (id : string) (title : option string)
    (contents : list string) : Conversation.t :=
  Conversation.mk (Some id) (Some "u-1") title None None
    (Some (map (fun s => Message.mk (Some s) (Some true)) contents)).

(** The predicates of the two filter forms, as an operator reads them.
    [verified u]: the verification flag is there and set. *)
Definition verified (u : User.t) : Prop :=
  default false (User.is_verified u) = true.

Definition plan_passes (filter_plan : string) (u : User.t) : Prop :=
  filter_plan = "Tous" \/ User.plan u = Some filter_plan.

Definition verified_passes (filter_verified : string) (u : User.t) : Prop :=
  (filter_verified = "Vérifiés" -> verified u)
  /\ (filter_verified = "Non vérifiés" -> ~ verified u).

Definition title_passes {L : Py.Lower} (search_term : string)
    (c : Conversation.t) : Prop :=
  contains_ci search_term (default "" (Conversation.title c)).

Definition count_passes (min_messages : Z) (c : Conversation.t) : Prop :=
  (min_messages <= Py.len (default [] (Conversation.messages c)))%Z.

(** A user stored without a [plan] field. *)
Definition user_without_plan : User.t :=
  sample_user (Some "ana@example.org") None (Some true).

(** A conversation stored without a [title] field. *)
Definition untitled_conversation : Conversation.t :=
  sample_conversation "c-7" None ["Bonjour"].

(** The two conversations of the keyword search example. *)
Definition hello_conversation : Conversation.t :=
  sample_conversation "C1" (Some "Greeting") ["Hello world"].

Definition goodbye_conversation : Conversation.t :=
  sample_conversation "C2" (Some "Leaving") ["Goodbye"].

(** ** Sample stores and caches *)

Definition store_up : Store.t :=
  Store.mk (Ok [user_without_plan])
           (Ok [hello_conversation; goodbye_conversation]).

(** The same store after its data changed. *)
Definition store_changed : Store.t :=
  Store.mk (Ok []) (Ok [goodbye_conversation]).

(** The store out of reach. *)
Definition store_down : Store.t :=
  Store.mk (Raise "ServiceUnavailable") (Raise "ServiceUnavailable").

Definition empty_cache : Cache.t := Cache.mk None None.

(** A cache whose two snapshots were stored at clock reading 0. *)
Definition loaded_cache : Cache.t :=
  Cache.mk (Some (Cache.mk_entry [user_without_plan] 0))
           (Some (Cache.mk_entry [hello_conversation; goodbye_conversation] 0)).

(** ** Overview page: the recent conversations *)

Module Recent.

(** The sort key [x.get('createdAt', '')]. *)
Definition created (c : Conversation.t) : string :=
  default "" (Conversation.createdAt c).

(** [sorted(xs, key=..., reverse=True)] is the stable sort into descending
    keys: elements with equal keys keep the order they have in [xs].
    Strings compare byte by byte, which on UTF-8 text is the order of the
    code points.  [insert_desc c l] puts [c], which comes before all of [l]
    in [xs], in front of the first element whose key is not greater. *)
Fixpoint insert_desc (c : Conversation.t) (l : list Conversation.t)
  : list Conversation.t :=
  match l with
  | [] => [c]
  | d :: l' =>
      if String.ltb (created c) (created d)
      then d :: insert_desc c l'
      else c :: l
  end.

Definition sorted_reverse (conversations : list Conversation.t)
  : list Conversation.t :=
  fold_right insert_desc [] conversations.

(** [sorted(conversations, key=lambda x: x.get('createdAt', ''),
    reverse=True)[:10]] *)
Definition recent_conversations (conversations : list Conversation.t)
  : list Conversation.t :=
  firstn 10 (sorted_reverse conversations).

End Recent.

(** [a] was created no earlier than [b], by the sort key. *)
Definition not_older (a b : Conversation.t) : Prop :=
  String.leb (Recent.created b) (Recent.created a) = true.

Definition conversation_created (id created : string) : Conversation.t :=
  Conversation.mk (Some id) None None (Some created) None None.

(** ** Conversations page: drawing the messages *)

Module Display.

(** [len(s)] on a string counts code points; in UTF-8 these are the bytes
    that are not continuation bytes (10xxxxxx). *)
Definition is_continuation (c : ascii) : bool :=
  let n := nat_of_ascii c in
  (128 <=? n)%nat && (n <? 192)%nat.

Fixpoint str_len (s : string) : nat :=
  match s with
  | EmptyString => 0%nat
  | String c s' => ((if is_continuation c then 0 else 1) + str_len s')%nat
  end.

(** The Streamlit elements [display_message] draws, with the arguments it
    passes. *)
Inductive element :=
| markdown (body : string)
| info (body : string)
| success (body : string)
| text_area (label value : string) (height : Z) (disabled : bool)
            (label_visibility key : string).

Section WithHash.

(** [hash(content)]: the interpreter's hash of a string, salted anew in
    every process. *)
Variable hash : string -> Z.

(** [f"msg_{conversation_id}_{index}_{hash(content)}"] *)
Definition message_key (conversation_id : string) (index : nat)
    (content : string) : string :=
  "msg_" +:+ conversation_id +:+ "_" +:+ pretty index +:+ "_"
  +:+ pretty (hash content).

Definition display_message (message : Message.t) (index : nat)
    (conversation_id : string) : list element :=
  let content := default "N/A" (Message.content message) in
  if default false (Message.isUser message)
  then [ markdown "**👤 Utilisateur:**"; info content ]
  else if (500 <? str_len content)%nat
  then [ markdown ("**🤖 IA (Réponse longue - " +:+ pretty (str_len content)
                   +:+ " caractères):**");
         text_area ("Message " +:+ pretty index) content 200 true "collapsed"
                   (message_key conversation_id index content) ]
  else [ markdown "**🤖 IA:**"; success content ].

(** [for idx, message in enumerate(messages): display_message(message, idx,
    conversation_id)], the count starting at [start]. *)
Fixpoint display_messages_from (start : nat) (conversation_id : string)
    (messages : list Message.t) : list element :=
  match messages with
  | [] => []
  | message :: messages' =>
      display_message message start conversation_id
      ++ display_messages_from (S start) conversation_id messages'
  end.

(** The message part of a conversation's expander:
    [messages = conv.get('messages', [])], then the loop with
    [conv.get('id', 'unknown')]. *)
Definition conversation_messages (conv : Conversation.t) : list element :=
  display_messages_from 0 (default "unknown" (Conversation.id conv))
                        (default [] (Conversation.messages conv)).

End WithHash.

End Display.

(** ** Users page: the conversations of one user *)

Module UserDetail.

(** What the expander of a user writes under the number of conversations:
    the line "_Aucune conversation_", or one line for each of the first
    five conversations and, when there are more, the line
    "... et n autres conversations". *)
Inductive summary :=
| no_conversation
| listed (shown : list Conversation.t) (others : option nat).

(** [if user_conversations:], [user_conversations[:5]],
    [if len(user_conversations) > 5:] with [len(user_conversations) - 5]. *)
Definition summarize (user_conversations : list Conversation.t) : summary :=
  match user_conversations with
  | [] => no_conversation
  | _ :: _ =>
      listed (firstn 5 user_conversations)
             (if (5 <? length user_conversations)%nat
              then Some (length user_conversations - 5)%nat
              else None)
  end.

End UserDetail.

(** The widget key of an element, for those that have one. *)
Definition element_key (e : Display.element) : option string :=
  match e with
  | Display.text_area _ _ _ _ _ key => Some key
  | _ => None
  end.


(** An assistant message of more than 500 characters. *)
Definition long_reply (m : Message.t) : bool :=
  negb (default false (Message.isUser m))
  && (500 <? Display.str_len (default "N/A" (Message.content m)))%nat.

(** The character [c] occurs in [s]. *)
Fixpoint occurs (c : ascii) (s : string) : bool :=
  match s with
  | EmptyString => false
  | String d s' => Ascii.eqb c d || occurs c s'
  end.

(** ** Facts about the primitives *)

Section PySum.

Lemma fold_add_acc (xs : list nat) (a : nat) :
  fold_left Nat.add xs a = a + fold_left Nat.add xs 0.
Proof.
  revert a. induction xs as [|x xs IH]; intros a; simpl.
  - lia.
  - rewrite (IH (a + x)), (IH x). lia.
Qed.

Lemma sum_cons (x : nat) (xs : list nat) : Py.sum (x :: xs) = x + Py.sum xs.
Proof. unfold Py.sum. simpl. apply fold_add_acc. Qed.

Lemma sum_app (xs ys : list nat) : Py.sum (xs ++ ys) = Py.sum xs + Py.sum ys.
Proof.
  induction xs as [|x xs IH]; [reflexivity|].
  simpl. rewrite !sum_cons, IH. lia.
Qed.

Lemma sum_ones {A} (l : list A) : Py.sum (map (fun _ => 1) l) = length l.
Proof.
  induction l as [|x l IH]; [reflexivity|].
  simpl. rewrite sum_cons, IH. reflexivity.
Qed.

End PySum.

(** ** Total message count *)

Lemma total_messages_app (cs1 cs2 : list Conversation.t) :
  Overview.total_messages (cs1 ++ cs2)
  = Overview.total_messages cs1 + Overview.total_messages cs2.
Proof. unfold Overview.total_messages. rewrite map_app. apply sum_app. Qed.

Lemma total_messages_cons (c : Conversation.t) (cs : list Conversation.t) :
  Overview.total_messages (c :: cs)
  = length (default [] (Conversation.messages c)) + Overview.total_messages cs.
Proof. unfold Overview.total_messages. simpl. apply sum_cons. Qed.

Example total_messages_sample :
  let m := Message.mk (Some "hi") (Some true) in
  let c ms := Conversation.mk (Some "c") None None None None ms in
  Overview.total_messages [c (Some [m; m]); c None; c (Some [m])] = 3.
Proof. reflexivity. Qed.

(** C9. The total message statistic of a snapshot is the sum of the lengths
    of its conversations' message sequences, a conversation without a
    [messages] field counting for 0: it is the number of messages of the
    snapshot laid end to end, every conversation adds the length of its own
    sequence, and a snapshot cut in two anywhere has the total of its parts. *)
Theorem total_messages_is_sum (conversations : list Conversation.t) :
  Overview.total_messages conversations = length (all_messages conversations)
  /\ Overview.total_messages [] = 0
  /\ (forall c cs,
        Overview.total_messages (c :: cs)
        = match Conversation.messages c with
          | None => 0
          | Some ms => length ms
          end + Overview.total_messages cs)
  /\ (forall cs1 cs2,
        Overview.total_messages (cs1 ++ cs2)
        = Overview.total_messages cs1 + Overview.total_messages cs2).
Proof.
  repeat split.
  - unfold all_messages.
    induction conversations as [|c cs IH]; [reflexivity|].
    rewrite total_messages_cons, IH. simpl.
    rewrite length_app. reflexivity.
  - intros c cs. rewrite total_messages_cons.
    destruct (Conversation.messages c); reflexivity.
  - apply total_messages_app.
Qed.

(** ** Plan histogram *)

Section Histogram.

Implicit Types (h : gmap string nat) (p : string) (u : User.t).

Lemma histogram_total_empty : histogram_total ∅ = 0.
Proof. unfold histogram_total. apply map_fold_empty. Qed.

Lemma histogram_total_insert_fresh h p n :
  h !! p = None -> histogram_total (<[p := n]> h) = n + histogram_total h.
Proof.
  intros Hp. unfold histogram_total.
  apply (map_fold_insert_L (fun _ n acc => n + acc)); [|exact Hp].
  intros; lia.
Qed.

(** Adding one to a bucket, created at 1 when it is not there yet, adds
    one to the total. *)
Lemma histogram_total_bump h p :
  histogram_total (<[p := Py.get_count h p + 1]> h) = histogram_total h + 1.
Proof.
  unfold Py.get_count. destruct (h !! p) as [n|] eqn:Hp; simpl.
  - rewrite <- (insert_delete_id h p n Hp) at 2.
    rewrite <- (insert_delete_eq h).
    rewrite !histogram_total_insert_fresh by apply lookup_delete_eq.
    lia.
  - rewrite histogram_total_insert_fresh by exact Hp. lia.
Qed.

Lemma get_count_bump h p q :
  Py.get_count (<[p := Py.get_count h p + 1]> h) q
  = Py.get_count h q + (if String.eqb p q then 1 else 0).
Proof.
  unfold Py.get_count at 1 3.
  destruct (String.eqb_spec p q) as [->|Hne].
  - rewrite lookup_insert_eq. reflexivity.
  - rewrite lookup_insert_ne by exact Hne. simpl. lia.
Qed.

Lemma plan_counts_acc_total (users : list User.t) h :
  histogram_total (fold_left Overview.count_plan users h)
  = histogram_total h + length users.
Proof.
  revert h. induction users as [|u us IH]; intros h; simpl.
  - lia.
  - rewrite IH. unfold Overview.count_plan.
    rewrite histogram_total_bump. lia.
Qed.

Lemma plan_counts_acc_bucket (users : list User.t) h q :
  Py.get_count (fold_left Overview.count_plan users h) q
  = Py.get_count h q
    + count_if (fun u => String.eqb (default "unknown" (User.plan u)) q) users.
Proof.
  revert h. induction users as [|u us IH]; intros h; simpl.
  - unfold count_if. simpl. lia.
  - rewrite IH. unfold Overview.count_plan. rewrite get_count_bump.
    unfold count_if. simpl.
    destruct (String.eqb (default "unknown" (User.plan u)) q); simpl; lia.
Qed.

Lemma count_if_ext {A} (f g : A -> bool) (l : list A) :
  (forall x, f x = g x) -> count_if f l = count_if g l.
Proof.
  intros E. unfold count_if. induction l as [|x l IH]; [reflexivity|].
  simpl. rewrite E. destruct (g x); simpl; congruence.
Qed.

Lemma count_if_orb_disjoint {A} (f g : A -> bool) (l : list A) :
  (forall x, f x && g x = false) ->
  count_if (fun x => f x || g x) l = count_if f l + count_if g l.
Proof.
  intros D. unfold count_if. induction l as [|x l IH]; [reflexivity|].
  simpl. specialize (D x).
  destruct (f x), (g x); simpl in *; try discriminate; lia.
Qed.

End Histogram.

Example plan_counts_sample :
  let u p := User.mk None None None None p None None None in
  Overview.plan_counts [u (Some "pro"); u (Some "free"); u (Some "pro")]
  = {[ "pro" := 2; "free" := 1 ]}.
Proof. apply map_eq. intros k. vm_compute. reflexivity. Qed.

(** C4. In the plan histogram of a snapshot the bucket ["unknown"] counts
    every user without a [plan] field (together with the users whose plan
    is the literal ["unknown"]), every other bucket counts the users whose
    [plan] field holds that very value, and the counts of all buckets add
    up to the number of users. *)
Theorem plan_histogram (users : list User.t) :
  Py.get_count (Overview.plan_counts users) "unknown"
  = count_if plan_absent users + count_if (plan_is "unknown") users
  /\ (forall p,
        Py.get_count (Overview.plan_counts users) p
        = (if String.eqb p "unknown" then count_if plan_absent users else 0)
          + count_if (plan_is p) users)
  /\ histogram_total (Overview.plan_counts users) = length users.
Proof.
  assert (B : forall p,
    Py.get_count (Overview.plan_counts users) p
    = (if String.eqb p "unknown" then count_if plan_absent users else 0)
      + count_if (plan_is p) users).
  { intros p. unfold Overview.plan_counts.
    rewrite plan_counts_acc_bucket. unfold Py.get_count at 1.
    rewrite lookup_empty. simpl.
    destruct (String.eqb_spec p "unknown") as [->|Hne].
    - rewrite <- count_if_orb_disjoint.
      + apply count_if_ext. intros u. unfold plan_absent, plan_is.
        destruct (User.plan u); reflexivity.
      + intros u. unfold plan_absent, plan_is. destruct (User.plan u); reflexivity.
    - apply count_if_ext. intros u. unfold plan_is.
      destruct (User.plan u) as [q|]; [reflexivity|].
      apply String.eqb_neq. simpl. congruence. }
  split; [|split].
  - rewrite B. reflexivity.
  - exact B.
  - unfold Overview.plan_counts. rewrite plan_counts_acc_total.
    rewrite histogram_total_empty. reflexivity.
Qed.

(** ** Strings: substring test and lowering *)

Section Strings.

Context {L : Py.Lower}.

Implicit Types (s t sub : string).

Lemma append_nil s : "" +:+ s = s.
Proof. reflexivity. Qed.

Lemma append_cons c s t : String c s +:+ t = String c (s +:+ t).
Proof. reflexivity. Qed.

Lemma prefix_spec sub s :
  String.prefix sub s = true <-> exists rest, s = sub +:+ rest.
Proof.
  revert s. induction sub as [|a sub IH]; intros s.
  - destruct s; simpl; split; eauto.
  - destruct s as [|b s]; simpl.
    + split; [discriminate | intros [rest H]; discriminate].
    + destruct (ascii_dec a b) as [->|Hne].
      * rewrite IH. split; intros [rest H]; exists rest;
          rewrite append_cons in *; congruence.
      * split; [discriminate|].
        intros [rest H]. rewrite append_cons in H. congruence.
Qed.

Lemma str_in_spec sub s :
  Py.str_in sub s = true <-> exists before after, s = before +:+ sub +:+ after.
Proof.
  induction s as [|b s IH].
  - change (Py.str_in sub "") with (String.prefix sub "" || false).
    rewrite orb_false_r, prefix_spec. split.
    + intros [rest H]. exists "", rest. exact H.
    + intros [before [after H]]. destruct before; [eauto | discriminate].
  - change (Py.str_in sub (String b s))
      with (String.prefix sub (String b s) || Py.str_in sub s).
    rewrite orb_true_iff, prefix_spec, IH. split.
    + intros [[rest H] | [before [after H]]].
      * exists "", rest. exact H.
      * exists (String b before), after. rewrite append_cons. congruence.
    + intros [before [after H]]. destruct before as [|c before].
      * left. eauto.
      * right. exists before, after. rewrite append_cons in H. congruence.
Qed.

(** Only the empty string occurs in the empty string. *)
Lemma str_in_empty sub : Py.str_in sub "" = negb (Py.truthy sub).
Proof. destruct sub; reflexivity. Qed.

Lemma lower_nil : Py.lower "" = "".
Proof. apply Py.lower_empty. reflexivity. Qed.

(** Lowering keeps the empty string empty and the others non-empty. *)
Lemma lower_truthy s : Py.truthy (Py.lower s) = Py.truthy s.
Proof.
  destruct s as [|c s]; [rewrite lower_nil; reflexivity|].
  destruct (Py.lower (String c s)) eqn:E; [|reflexivity].
  apply (proj1 (Py.lower_empty _)) in E. discriminate E.
Qed.

Lemma truthy_true s : Py.truthy s = true <-> s <> "".
Proof. destruct s; simpl; split; congruence. Qed.

(** The script's test [term.lower() in text.lower()] decides [contains_ci]. *)
Lemma str_in_lower term text :
  Py.str_in (Py.lower term) (Py.lower text) = true <-> contains_ci term text.
Proof. apply str_in_spec. Qed.

(** A non-empty term never occurs in an absent (defaulted to empty) text. *)
Lemma str_in_lower_empty term :
  Py.truthy term = true -> Py.str_in (Py.lower term) (Py.lower "") = false.
Proof.
  intros H. rewrite lower_nil.
  rewrite str_in_empty, lower_truthy, H. reflexivity.
Qed.

End Strings.

(** On ASCII text every lowering is the ASCII one: rewrites the lowerings
    of the literals of a goal into their values. *)
Ltac lower_literals :=
  cbn [default];
  repeat match goal with
         | |- context [Py.lower ?s] =>
             rewrite (Py.lower_ascii s eq_refl);
             change (Py.ascii_lower s) with ltac:(let v := eval vm_compute in (Py.ascii_lower s) in exact v)
         end.

Example lower_sample {L : Py.Lower} :
  Py.lower "Hello World 42" = "hello world 42".
Proof. lower_literals. reflexivity. Qed.

Example str_in_sample {L : Py.Lower} :
  Py.str_in "world" (Py.lower "Hello World") = true
  /\ Py.str_in "word" (Py.lower "Hello World") = false
  /\ Py.str_in "" "" = true.
Proof. lower_literals. repeat split. Qed.

(** ** Lists: comprehensions keep a subsequence *)

Section Comprehension.

Context {A : Type}.
Implicit Types (p : A -> bool) (l : list A).

Lemma filter_sublist p l : List.filter p l `sublist_of` l.
Proof.
  induction l as [|x l IH]; simpl.
  - constructor.
  - destruct (p x); constructor; exact IH.
Qed.

(** [acc = []] then [acc.append(f(x))] for every [x] is [map f]. *)
Lemma append_loop_map {B} (f : A -> B) l (acc : list B) :
  fold_left (fun acc x => acc ++ [f x]) l acc = acc ++ map f l.
Proof.
  revert acc. induction l as [|x l IH]; intros acc; simpl.
  - rewrite app_nil_r. reflexivity.
  - rewrite IH, <- app_assoc. reflexivity.
Qed.

End Comprehension.

(** ** Verified users *)

Lemma verified_users_count (users : list User.t) :
  Overview.verified_users users
  = count_if (fun u => default false (User.is_verified u)) users.
Proof. unfold Overview.verified_users, count_if. apply sum_ones. Qed.

Example statistics_sample :
  let u p v := sample_user None (Some p) v in
  let s := Overview.statistics
             [u "pro" (Some true); u "free" None; u "pro" (Some false)]
             [hello_conversation; goodbye_conversation] in
  Overview.n_users s = 3 /\ Overview.n_verified s = 1
  /\ Overview.n_conversations s = 2 /\ Overview.n_messages s = 2
  /\ Overview.plans s !! "pro" = Some 2 /\ Overview.plans s !! "free" = Some 1.
Proof. repeat split. Qed.

(** ** Users page and conversations page: the filters *)

Section Filters.

Context {L : Py.Lower}.

Implicit Types (u : User.t) (c : Conversation.t).

Lemma eq_str_spec (field : option string) (s : string) :
  Py.eq_str field s = true <-> field = Some s.
Proof.
  destruct field as [v|]; simpl.
  - rewrite String.eqb_eq. split; congruence.
  - split; discriminate.
Qed.

Lemma str_in_nil_l (s : string) : Py.str_in "" s = true.
Proof. apply str_in_spec. exists "", s. reflexivity. Qed.

(** The plan filter alone keeps [u] exactly when [plan_passes]. *)
Lemma plan_step_In filter_plan (users : list User.t) u :
  In u (if negb (String.eqb filter_plan "Tous")
        then List.filter (fun u => Py.eq_str (User.plan u) filter_plan) users
        else users)
  <-> In u users /\ plan_passes filter_plan u.
Proof.
  unfold plan_passes.
  destruct (String.eqb_spec filter_plan "Tous") as [->|Hne]; simpl.
  - tauto.
  - rewrite filter_In, eq_str_spec. tauto.
Qed.

Lemma verified_step_In filter_verified (users : list User.t) u :
  In u (if String.eqb filter_verified "Vérifiés"
        then List.filter (fun u => default false (User.is_verified u)) users
        else if String.eqb filter_verified "Non vérifiés"
        then List.filter (fun u => negb (default false (User.is_verified u)))
                         users
        else users)
  <-> In u users /\ verified_passes filter_verified u.
Proof.
  unfold verified_passes, verified.
  destruct (String.eqb_spec filter_verified "Vérifiés") as [->|Hv].
  - rewrite filter_In. split.
    + intros [Hu Ht]. repeat split; [exact Hu | auto | discriminate].
    + intros [Hu [Ht _]]. auto.
  - destruct (String.eqb_spec filter_verified "Non vérifiés") as [->|Hn].
    + rewrite filter_In, negb_true_iff, <- not_true_iff_false. split.
      * intros [Hu Hf]. repeat split; [exact Hu | discriminate | auto].
      * intros [Hu [_ Hf]]. auto.
    + split; [|tauto]. intros Hu. repeat split; [exact Hu | |]; intros; congruence.
Qed.

Lemma filtered_users_In filter_plan filter_verified (users : list User.t) u :
  In u (UsersPage.filtered_users filter_plan filter_verified users)
  <-> In u users
      /\ plan_passes filter_plan u /\ verified_passes filter_verified u.
Proof.
  unfold UsersPage.filtered_users.
  cbv zeta. rewrite verified_step_In, plan_step_In. tauto.
Qed.

Lemma filtered_users_sublist filter_plan filter_verified (users : list User.t) :
  UsersPage.filtered_users filter_plan filter_verified users `sublist_of` users.
Proof.
  unfold UsersPage.filtered_users. cbv zeta.
  set (l1 := if negb _ then _ else _).
  assert (H1 : l1 `sublist_of` users).
  { subst l1. destruct (negb _); [apply filter_sublist | reflexivity]. }
  clearbody l1. etransitivity; [|exact H1].
  destruct (String.eqb _ _); [apply filter_sublist|].
  destruct (String.eqb _ _); [apply filter_sublist | reflexivity].
Qed.

Lemma len_nonneg {A} (l : list A) : (0 <= Py.len l)%Z.
Proof. unfold Py.len. lia. Qed.

Lemma title_step_In search_term (conversations : list Conversation.t) c :
  In c (if Py.truthy search_term
        then List.filter
               (fun c => Py.str_in (Py.lower search_term)
                           (Py.lower (default "" (Conversation.title c))))
               conversations
        else conversations)
  <-> In c conversations /\ title_passes search_term c.
Proof.
  unfold title_passes. destruct search_term as [|a t].
  - simpl. split; [|tauto]. intros Hc. split; [exact Hc|].
    apply str_in_lower. rewrite lower_nil. apply str_in_nil_l.
  - cbn [Py.truthy]. rewrite filter_In, str_in_lower. tauto.
Qed.

Lemma count_step_In min_messages (conversations : list Conversation.t) c :
  In c (if (0 <? min_messages)%Z
        then List.filter
               (fun c => (min_messages <=?
                          Py.len (default [] (Conversation.messages c)))%Z)
               conversations
        else conversations)
  <-> In c conversations /\ count_passes min_messages c.
Proof.
  unfold count_passes. destruct (Z.ltb_spec 0 min_messages) as [Hpos|Hle].
  - rewrite filter_In, Z.leb_le. tauto.
  - split; [|tauto]. intros Hc. split; [exact Hc|].
    pose proof (len_nonneg (default [] (Conversation.messages c))). lia.
Qed.

Lemma filtered_convs_In search_term min_messages
    (conversations : list Conversation.t) c :
  In c (ConversationsPage.filtered_convs search_term min_messages conversations)
  <-> In c conversations
      /\ title_passes search_term c /\ count_passes min_messages c.
Proof.
  unfold ConversationsPage.filtered_convs. cbv zeta.
  rewrite count_step_In, title_step_In. tauto.
Qed.

Lemma filtered_convs_sublist search_term min_messages
    (conversations : list Conversation.t) :
  ConversationsPage.filtered_convs search_term min_messages conversations
  `sublist_of` conversations.
Proof.
  unfold ConversationsPage.filtered_convs. cbv zeta.
  set (l1 := if Py.truthy _ then _ else _).
  assert (H1 : l1 `sublist_of` conversations).
  { subst l1. destruct (Py.truthy _); [apply filter_sublist | reflexivity]. }
  clearbody l1. etransitivity; [|exact H1].
  destruct (_ <? _)%Z; [apply filter_sublist | reflexivity].
Qed.

End Filters.

Example filtered_users_sample :
  let a := sample_user (Some "a@x.io") (Some "pro") (Some true) in
  let b := sample_user (Some "b@x.io") (Some "free") (Some true) in
  let c := sample_user (Some "c@x.io") (Some "pro") None in
  UsersPage.filtered_users "pro" "Tous" [a; b; c] = [a; c]
  /\ UsersPage.filtered_users "pro" "Vérifiés" [a; b; c] = [a]
  /\ UsersPage.filtered_users "Tous" "Non vérifiés" [a; b; c] = [c].
Proof. repeat split. Qed.

Example filtered_convs_sample {L : Py.Lower} :
  let a := sample_conversation "c1" (Some "Recette de Pain") ["x"; "y"] in
  let b := sample_conversation "c2" (Some "Jardin") ["x"] in
  ConversationsPage.filtered_convs "PAIN" 0 [a; b] = [a]
  /\ ConversationsPage.filtered_convs "" 2 [a; b] = [a]
  /\ ConversationsPage.filtered_convs "a" 1 [a; b] = [a; b].
Proof.
  unfold ConversationsPage.filtered_convs, sample_conversation.
  cbn [Py.truthy Conversation.title List.filter].
  lower_literals. repeat split.
Qed.

(** C6. Whatever the plan and verification choices of the users page and
    the title term and minimum message count of the conversations page,
    the filtered list is a subsequence of the loaded list in its order; an
    element is in it exactly when it is in the loaded list and passes every
    predicate (exact plan, verification state, title containing the term
    with case ignored, at least the minimum number of messages); and the
    choice "Tous", the empty term and the minimum 0 pass every element. *)
Theorem filter_conjunction {L : Py.Lower}
    (filter_plan filter_verified : string) (users : list User.t)
    (search_term : string) (min_messages : Z)
    (conversations : list Conversation.t) :
  UsersPage.filtered_users filter_plan filter_verified users `sublist_of` users
  /\ (forall u,
        In u (UsersPage.filtered_users filter_plan filter_verified users)
        <-> In u users
            /\ plan_passes filter_plan u /\ verified_passes filter_verified u)
  /\ (forall u, plan_passes "Tous" u /\ verified_passes "Tous" u)
  /\ UsersPage.filtered_users "Tous" "Tous" users = users
  /\ ConversationsPage.filtered_convs search_term min_messages conversations
     `sublist_of` conversations
  /\ (forall c,
        In c (ConversationsPage.filtered_convs search_term min_messages
                conversations)
        <-> In c conversations
            /\ title_passes search_term c /\ count_passes min_messages c)
  /\ (forall c, title_passes "" c /\ count_passes 0 c)
  /\ ConversationsPage.filtered_convs "" 0 conversations = conversations.
Proof.
  split; [apply filtered_users_sublist|].
  split; [intros u; apply filtered_users_In|].
  split.
  { intros u. unfold plan_passes, verified_passes.
    repeat split; try (left; reflexivity); discriminate. }
  split; [reflexivity|].
  split; [apply filtered_convs_sublist|].
  split; [intros c; apply filtered_convs_In|].
  split; [|reflexivity].
  intros c. split.
  - unfold title_passes. apply str_in_lower. rewrite lower_nil. apply str_in_nil_l.
  - unfold count_passes. apply len_nonneg.
Qed.

(** ** Users page: the plan choice ["unknown"] *)

Lemma unknown_offered_when_plan_absent (users : list User.t) (u : User.t) :
  In u users -> User.plan u = None -> In "unknown" (UsersPage.plan_options users).
Proof.
  intros Hu Hp. unfold UsersPage.plan_options. right.
  apply list_elem_of_In, elem_of_elements, elem_of_list_to_set.
  apply list_elem_of_In, in_map_iff. exists u. rewrite Hp. auto.
Qed.

Lemma plan_filter_drops_absent_plan filter_plan filter_verified
    (users : list User.t) (u : User.t) :
  filter_plan <> "Tous" -> User.plan u = None ->
  ~ In u (UsersPage.filtered_users filter_plan filter_verified users).
Proof.
  intros Hf Hp Hin. apply filtered_users_In in Hin.
  destruct Hin as [_ [[Ht | Hs] _]]; congruence.
Qed.

(** C3. The snapshot holding one user without a [plan] field: the plan
    select box offers ["unknown"] and the histogram counts the user under
    ["unknown"], but with ["unknown"] selected the filtered list is empty,
    the user is not in it. *)
Theorem unknown_plan_filter_misses_absent_plan :
  User.plan user_without_plan = None
  /\ In "unknown" (UsersPage.plan_options [user_without_plan])
  /\ Py.get_count (Overview.plan_counts [user_without_plan]) "unknown" = 1
  /\ UsersPage.filtered_users "unknown" "Tous" [user_without_plan] = [].
Proof.
  split; [reflexivity|].
  split.
  { apply (unknown_offered_when_plan_absent _ user_without_plan);
      [left|]; reflexivity. }
  split; reflexivity.
Qed.

(** ** Users page: the two exports *)

Lemma export_data_map (filtered_users : list User.t) :
  UsersPage.export_data filtered_users
  = map UsersPage.export_row filtered_users.
Proof.
  unfold UsersPage.export_data.
  exact (append_loop_map UsersPage.export_row filtered_users []).
Qed.

Example export_sample :
  UsersPage.export_data [user_without_plan]
  = [[ ("Email", UsersPage.Text "ana@example.org");
       ("Plan", UsersPage.Text "N/A");
       ("Prénom", UsersPage.Text "N/A");
       ("Nom", UsersPage.Text "N/A");
       ("Vérifié", UsersPage.Text "Oui");
       ("Créé le", UsersPage.Text "N/A");
       ("Requêtes quotidiennes", UsersPage.Number 0) ]].
Proof. reflexivity. Qed.

(** C7 fails on the header texts: the headers of the full export are not
    the English names; the third to seventh are French. *)
Lemma export_headers_not_english :
  UsersPage.columns (UsersPage.export_row user_without_plan)
  <> ["Email"; "Plan"; "First Name"; "Last Name"; "Verified"; "Created At";
      "Daily Requests"].
Proof. vm_compute. discriminate. Qed.

(** C7. For every filtered list of users, the full export has one row per
    user, in the order of the list, each with exactly the columns Email,
    Plan, Prénom, Nom, Vérifié, Créé le, Requêtes quotidiennes in that
    order, and the short export one row per user with exactly the columns
    Email, Plan; in both, the Email cell of a user without an [email] field
    is the text ["N/A"]. *)
Theorem export_projection (filtered_users : list User.t) :
  UsersPage.export_data filtered_users
  = map UsersPage.export_row filtered_users
  /\ UsersPage.simple_data filtered_users
     = map UsersPage.simple_row filtered_users
  /\ (forall u,
        UsersPage.columns (UsersPage.export_row u)
        = ["Email"; "Plan"; "Prénom"; "Nom"; "Vérifié"; "Créé le";
           "Requêtes quotidiennes"]
        /\ UsersPage.columns (UsersPage.simple_row u) = ["Email"; "Plan"])
  /\ (forall u,
        let email_cell :=
          Some (UsersPage.Text match User.email u with
                               | None => "N/A"
                               | Some address => address
                               end) in
        UsersPage.cell_of "Email" (UsersPage.export_row u) = email_cell
        /\ UsersPage.cell_of "Email" (UsersPage.simple_row u) = email_cell).
Proof.
  split; [apply export_data_map|].
  split; [reflexivity|].
  split; [intros u; split; reflexivity|].
  intros u. simpl. destruct (User.email u); split; reflexivity.
Qed.

(** ** Conversations page: conversations without a title *)

Lemma title_filter_drops_untitled {L : Py.Lower} search_term min_messages
    (conversations : list Conversation.t) (c : Conversation.t) :
  search_term <> "" -> Conversation.title c = None ->
  ~ In c (ConversationsPage.filtered_convs search_term min_messages
            conversations).
Proof.
  intros Ht Hc Hin. apply filtered_convs_In in Hin.
  destruct Hin as [_ [Hpass _]]. unfold title_passes in Hpass.
  rewrite Hc in Hpass. apply str_in_lower in Hpass.
  rewrite str_in_lower_empty in Hpass; [discriminate|].
  apply truthy_true. exact Ht.
Qed.

(** C8 fails on the filter: "sans" occurs, case ignored, in the title
    shown for a conversation without a title, and the title filter with
    that term does not keep the conversation. *)
Lemma placeholder_term_misses_untitled :
  Conversation.title untitled_conversation = None
  /\ Py.str_in (Py.lower (Lower := Py.ascii_lowering) "sans")
       (Py.lower (Lower := Py.ascii_lowering)
          (ConversationsPage.display_title untitled_conversation))
     = true
  /\ ConversationsPage.filtered_convs (L := Py.ascii_lowering) "sans" 0
       [untitled_conversation]
     = [].
Proof. repeat split. Qed.

(** The same with [str.lower] itself, whatever it does off the ASCII
    letters. *)
Lemma placeholder_term_misses_untitled_any {L : Py.Lower} :
  Py.str_in (Py.lower "sans")
    (Py.lower (ConversationsPage.display_title untitled_conversation))
  = true
  /\ ConversationsPage.filtered_convs "sans" 0 [untitled_conversation] = [].
Proof.
  unfold ConversationsPage.filtered_convs, ConversationsPage.display_title,
    untitled_conversation, sample_conversation.
  cbn [Py.truthy Conversation.title List.filter].
  lower_literals. repeat split.
Qed.

(** C8. A conversation without a [title] field is shown under the
    placeholder title ["Sans titre"]; the title filter reads its title as
    the empty string, so a non-empty search term never keeps it, whatever
    the term, the minimum message count and the snapshot. *)
Theorem untitled_conversation_title {L : Py.Lower} (c : Conversation.t)
    (search_term : string) (min_messages : Z)
    (conversations : list Conversation.t) :
  Conversation.title c = None ->
  search_term <> "" ->
  ConversationsPage.display_title c = "Sans titre"
  /\ ~ In c (ConversationsPage.filtered_convs search_term min_messages
               conversations).
Proof.
  intros Hc Ht. split.
  - unfold ConversationsPage.display_title. rewrite Hc. reflexivity.
  - apply title_filter_drops_untitled; assumption.
Qed.

Lemma untitled_conversation_title_witness :
  Conversation.title untitled_conversation = None
  /\ "sans" <> ""
  /\ ConversationsPage.display_title untitled_conversation = "Sans titre"
  /\ ~ In untitled_conversation
         (ConversationsPage.filtered_convs (L := Py.ascii_lowering) "sans" 0
            [untitled_conversation]).
Proof.
  split; [reflexivity|]. split; [discriminate|].
  apply (untitled_conversation_title (L := Py.ascii_lowering)
           untitled_conversation "sans" 0
           [untitled_conversation]); [reflexivity | discriminate].
Defined.

(** ** Search page *)

Section Search.

Context {L : Py.Lower}.

Variable search_keyword : string.

Implicit Types (conv c : Conversation.t) (msg : Message.t).
Implicit Types (messages : list Message.t) (results : list Conversation.t).

(** The inner loop appends [conv] once when some message matches, and
    leaves [results] alone when none does. *)
Lemma scan_messages_existsb conv messages results :
  SearchPage.scan_messages search_keyword conv messages results
  = if existsb (SearchPage.content_matches search_keyword) messages
    then results ++ [conv]
    else results.
Proof.
  induction messages as [|msg messages IH]; simpl; [reflexivity|].
  destruct (SearchPage.content_matches search_keyword msg); simpl;
    [reflexivity | exact IH].
Qed.


Lemma keyword_loop_acc (conversations : list Conversation.t) results :
  fold_left
    (fun results conv =>
       SearchPage.scan_messages search_keyword conv
         (default [] (Conversation.messages conv)) results)
    conversations results
  = results ++ List.filter (has_match search_keyword) conversations.
Proof.
  revert results.
  induction conversations as [|conv conversations IH]; intros results; simpl.
  - rewrite app_nil_r. reflexivity.
  - rewrite IH, scan_messages_existsb. unfold has_match at 2.
    destruct (existsb _ _); [rewrite <- app_assoc|]; reflexivity.
Qed.

Lemma keyword_search_filter (conversations : list Conversation.t) :
  SearchPage.keyword_search search_keyword conversations
  = List.filter (has_match search_keyword) conversations.
Proof. unfold SearchPage.keyword_search. apply keyword_loop_acc. Qed.

Hypothesis keyword_given : search_keyword <> "".



End Search.

Example keyword_search_sample {L : Py.Lower} :
  SearchPage.search_conversations "" "world"
    [hello_conversation; goodbye_conversation]
  = [hello_conversation]
  /\ SearchPage.search_conversations "" "O"
       [hello_conversation; goodbye_conversation; hello_conversation]
     = [hello_conversation; goodbye_conversation; hello_conversation].
Proof.
  unfold SearchPage.search_conversations. cbn [Py.truthy].
  rewrite !keyword_search_filter.
  unfold has_match, SearchPage.content_matches, hello_conversation,
    goodbye_conversation, sample_conversation.
  simpl. lower_literals. repeat split.
Qed.



(** C10. When an email term is given, the user search applies the email
    criterion alone (the lowered term occurs in the lowered email, an
    absent email reading as empty) and its result does not depend on the
    user id typed next to it; when a conversation id is given, the
    conversation search applies the exact id criterion alone and its
    result does not depend on the keyword. *)
Theorem search_precedence {L : Py.Lower} (search_email search_user_id : string)
    (users : list User.t) (search_conv_id search_keyword : string)
    (conversations : list Conversation.t) :
  search_email <> "" ->
  search_conv_id <> "" ->
  SearchPage.search_users search_email search_user_id users
  = List.filter (SearchPage.email_matches search_email) users
  /\ (forall u,
        In u (SearchPage.search_users search_email search_user_id users)
        <-> In u users
            /\ contains_ci search_email (default "" (User.email u)))
  /\ SearchPage.search_users search_email search_user_id users
     = SearchPage.search_users search_email "" users
  /\ SearchPage.search_conversations search_conv_id search_keyword conversations
     = List.filter (fun c => Py.eq_str (Conversation.id c) search_conv_id)
                   conversations
  /\ (forall c,
        In c (SearchPage.search_conversations search_conv_id search_keyword
                conversations)
        <-> In c conversations /\ Conversation.id c = Some search_conv_id)
  /\ SearchPage.search_conversations search_conv_id search_keyword conversations
     = SearchPage.search_conversations search_conv_id "" conversations.
Proof.
  intros He Hc. apply truthy_true in He, Hc.
  unfold SearchPage.search_users, SearchPage.search_conversations.
  rewrite He, Hc. repeat split.
  - apply filter_In in H. tauto.
  - apply filter_In in H. destruct H as [_ H].
    apply str_in_lower. exact H.
  - intros [Hu Hm]. apply filter_In. split; [exact Hu|].
    apply str_in_lower. exact Hm.
  - apply filter_In in H. tauto.
  - apply filter_In in H. destruct H as [_ H]. apply eq_str_spec. exact H.
  - intros [Hu Hm]. apply filter_In. split; [exact Hu|].
    apply eq_str_spec. exact Hm.
Qed.

Lemma search_precedence_witness :
  "ANA" <> "" /\ "C2" <> ""
  /\ SearchPage.search_users (L := Py.ascii_lowering) "ANA" "u-404"
       [user_without_plan]
     = [user_without_plan]
  /\ SearchPage.search_conversations (L := Py.ascii_lowering) "C2" "world"
       [hello_conversation; goodbye_conversation]
     = [goodbye_conversation].
Proof.
  split; [discriminate|]. split; [discriminate|].
  pose proof (search_precedence (L := Py.ascii_lowering)
                "ANA" "u-404" [user_without_plan]
                "C2" "world" [hello_conversation; goodbye_conversation]
                ltac:(discriminate) ltac:(discriminate)) as [Hu [_ [_ [Hc _]]]].
  split; [rewrite Hu | rewrite Hc]; reflexivity.
Defined.

(** ** Cache *)

Section CacheData.

Context {A : Type}.
Implicit Types (slot : option (Cache.entry A)).
Implicit Types (func : unit -> result A * list Store.query).

Lemma cache_data_hit now slot func v :
  Cache.lookup now slot = Some v ->
  Cache.cache_data now slot func = (Ok v, slot, []).
Proof. intros H. unfold Cache.cache_data. rewrite H. reflexivity. Qed.

Lemma cache_data_miss_ok now slot func v sent :
  Cache.lookup now slot = None ->
  func tt = (Ok v, sent) ->
  Cache.cache_data now slot func = (Ok v, Some (Cache.mk_entry v now), sent).
Proof. intros H F. unfold Cache.cache_data. rewrite H, F. reflexivity. Qed.

Lemma cache_data_miss_raise now slot func message sent :
  Cache.lookup now slot = None ->
  func tt = (Raise message, sent) ->
  Cache.cache_data now slot func = (Raise message, slot, sent).
Proof. intros H F. unfold Cache.cache_data. rewrite H, F. reflexivity. Qed.

Lemma lookup_fresh now (e : Cache.entry A) :
  (now < Cache.stored e + Cache.ttl)%Z ->
  Cache.lookup now (Some e) = Some (Cache.value e).
Proof.
  intros H. unfold Cache.lookup, Cache.fresh.
  destruct (Z.ltb_spec now (Cache.stored e + Cache.ttl)); [reflexivity | lia].
Qed.

(** An entry that has expired, or a missing one, stays so as time goes on. *)
Lemma lookup_none_later now later slot :
  Cache.lookup now slot = None -> (now <= later)%Z ->
  Cache.lookup later slot = None.
Proof.
  unfold Cache.lookup, Cache.fresh. destruct slot as [e|]; [|reflexivity].
  destruct (Z.ltb_spec now (Cache.stored e + Cache.ttl)); [discriminate|].
  intros _ Hl.
  destruct (Z.ltb_spec later (Cache.stored e + Cache.ttl)); [lia | reflexivity].
Qed.

(** After a call that returned a value, the slot holds that value. *)
Lemma cache_data_ok_slot now slot func v slot' sent :
  Cache.cache_data now slot func = (Ok v, slot', sent) ->
  exists e, slot' = Some e /\ Cache.value e = v.
Proof.
  unfold Cache.cache_data.
  destruct (Cache.lookup now slot) as [w|] eqn:L.
  - intros [= <- <- <-]. unfold Cache.lookup in L.
    destruct slot as [e|]; [|discriminate].
    destruct (Cache.fresh now e); [|discriminate].
    injection L as <-. eauto.
  - destruct (func tt) as [[w|m] s]; [|discriminate].
    intros [= <- <- <-]. eauto.
Qed.

(** A second call while the entry left by a first, successful call is
    fresh: same value, slot untouched, the function is not called. *)
Lemma cache_data_again now1 now2 slot func1 func2 v slot' sent e :
  Cache.cache_data now1 slot func1 = (Ok v, slot', sent) ->
  slot' = Some e ->
  (now2 < Cache.stored e + Cache.ttl)%Z ->
  Cache.cache_data now2 slot' func2 = (Ok v, slot', []).
Proof.
  intros H1 Hs Hf. apply cache_data_ok_slot in H1.
  destruct H1 as [e' [He' Hv]]. rewrite Hs in He'. injection He' as <-.
  rewrite Hs. apply cache_data_hit. rewrite <- Hv. apply lookup_fresh. exact Hf.
Qed.

End CacheData.

Lemma load_users_inv now db c r c' sent :
  load_users now db c = (r, c', sent) ->
  Cache.cache_data now (Cache.users c) (fun _ => query_users db)
  = (r, Cache.users c', sent)
  /\ Cache.conversations c' = Cache.conversations c.
Proof.
  unfold load_users.
  destruct (Cache.cache_data _ _ _) as [[r0 slot] s].
  intros [= <- <- <-]. split; reflexivity.
Qed.

Lemma load_conversations_inv now db c r c' sent :
  load_conversations now db c = (r, c', sent) ->
  Cache.cache_data now (Cache.conversations c)
                   (fun _ => query_conversations db)
  = (r, Cache.conversations c', sent)
  /\ Cache.users c' = Cache.users c.
Proof.
  unfold load_conversations.
  destruct (Cache.cache_data _ _ _) as [[r0 slot] s].
  intros [= <- <- <-]. split; reflexivity.
Qed.

Example load_users_sample :
  load_users 0 store_up empty_cache
  = (Ok [user_without_plan],
     Cache.mk (Some (Cache.mk_entry [user_without_plan] 0)) None,
     [Store.AllUsers])
  /\ load_users 59 store_changed loaded_cache
     = (Ok [user_without_plan], loaded_cache, [])
  /\ load_users 60 store_changed loaded_cache
     = (Ok [],
        Cache.mk (Some (Cache.mk_entry [] 60)) (Cache.conversations loaded_cache),
        [Store.AllUsers]).
Proof. repeat split. Qed.

(** C1. Take a call of [load_users] that returned a snapshot, and a second
    call made while the snapshot then held by the cache is younger than 60
    seconds, whatever the store holds by then: the second call returns the
    same list, leaves the cache as it is and sends no query.  The same
    holds for [load_conversations], and neither loader touches the other's
    snapshot. *)
Theorem cache_idempotence (c : Cache.t) (now1 now2 : Z) (db1 db2 : Store.t) :
  (forall users c1 sent e,
     load_users now1 db1 c = (Ok users, c1, sent) ->
     Cache.users c1 = Some e ->
     (now2 - Cache.stored e < 60)%Z ->
     load_users now2 db2 c1 = (Ok users, c1, [])
     /\ Cache.conversations c1 = Cache.conversations c)
  /\ (forall conversations c1 sent e,
        load_conversations now1 db1 c = (Ok conversations, c1, sent) ->
        Cache.conversations c1 = Some e ->
        (now2 - Cache.stored e < 60)%Z ->
        load_conversations now2 db2 c1 = (Ok conversations, c1, [])
        /\ Cache.users c1 = Cache.users c).
Proof.
  split.
  - intros users c1 sent e H He Hage.
    apply load_users_inv in H. destruct H as [H F]. split; [|exact F].
    unfold load_users.
    rewrite (cache_data_again now1 now2 _ _ (fun _ => query_users db2)
               _ _ _ e H He) by (unfold Cache.ttl; lia).
    destruct c1; reflexivity.
  - intros conversations c1 sent e H He Hage.
    apply load_conversations_inv in H. destruct H as [H F]. split; [|exact F].
    unfold load_conversations.
    rewrite (cache_data_again now1 now2 _ _ (fun _ => query_conversations db2)
               _ _ _ e H He) by (unfold Cache.ttl; lia).
    destruct c1; reflexivity.
Qed.

Lemma cache_idempotence_witness :
  load_users 0 store_up empty_cache
  = (Ok [user_without_plan],
     Cache.mk (Some (Cache.mk_entry [user_without_plan] 0)) None,
     [Store.AllUsers])
  /\ (59 - 0 < 60)%Z
  /\ load_users 59 store_changed
       (Cache.mk (Some (Cache.mk_entry [user_without_plan] 0)) None)
     = (Ok [user_without_plan],
        Cache.mk (Some (Cache.mk_entry [user_without_plan] 0)) None,
        []).
Proof.
  split; [reflexivity|]. split; [lia|].
  apply (proj1 (cache_idempotence empty_cache 0 59 store_up store_changed)
           [user_without_plan] _ [Store.AllUsers]
           (Cache.mk_entry [user_without_plan] 0));
    [reflexivity | reflexivity | simpl; lia].
Defined.

(** ** Refresh failure *)

Lemma load_users_failure now db c message :
  Cache.lookup now (Cache.users c) = None ->
  Store.users db = Raise message ->
  load_users now db c = (Raise message, c, [Store.AllUsers]).
Proof.
  intros Hmiss Hdown. unfold load_users.
  rewrite (cache_data_miss_raise now _ _ message [Store.AllUsers] Hmiss)
    by (unfold query_users; rewrite Hdown; reflexivity).
  destruct c; reflexivity.
Qed.

Lemma load_conversations_failure now db c message :
  Cache.lookup now (Cache.conversations c) = None ->
  Store.conversations db = Raise message ->
  load_conversations now db c = (Raise message, c, [Store.AllConversations]).
Proof.
  intros Hmiss Hdown. unfold load_conversations.
  rewrite (cache_data_miss_raise now _ _ message [Store.AllConversations] Hmiss)
    by (unfold query_conversations; rewrite Hdown; reflexivity).
  destruct c; reflexivity.
Qed.

(** A snapshot that is still fresh is served, whatever the store does. *)
Lemma load_users_hit now db c users :
  Cache.lookup now (Cache.users c) = Some users ->
  load_users now db c = (Ok users, c, []).
Proof.
  intros Hhit. unfold load_users.
  rewrite (cache_data_hit now _ _ users Hhit). destruct c; reflexivity.
Qed.

Lemma load_conversations_hit now db c conversations :
  Cache.lookup now (Cache.conversations c) = Some conversations ->
  load_conversations now db c = (Ok conversations, c, []).
Proof.
  intros Hhit. unfold load_conversations.
  rewrite (cache_data_hit now _ _ conversations Hhit). destruct c; reflexivity.
Qed.

(** On a miss the caller gets what the store answers. *)
Lemma load_users_miss now db c :
  Cache.lookup now (Cache.users c) = None ->
  exists c',
    load_users now db c = (Store.users db, c', [Store.AllUsers]).
Proof.
  intros Hmiss. unfold load_users, Cache.cache_data. rewrite Hmiss.
  unfold query_users. destruct (Store.users db); eauto.
Qed.

(** After the refresh button has cleared the cache, the next call sends
    the query. *)
Lemma load_users_after_clear now db c :
  exists c',
    load_users now db (Cache.clear c)
    = (Store.users db, c', [Store.AllUsers]).
Proof. apply load_users_miss. reflexivity. Qed.

(** C2 fails where it keeps the stale snapshot usable: a snapshot stored
    at 0 has expired at 100 and the store is out of reach; the refresh
    raises, and the next action, one second later, gets the error again and
    not the stale snapshot: the overview page shows the error message and
    no statistics. *)
Lemma stale_snapshot_not_served :
  Cache.users loaded_cache = Some (Cache.mk_entry [user_without_plan] 0)
  /\ load_users 100 store_down loaded_cache
     = (Raise "ServiceUnavailable", loaded_cache, [Store.AllUsers])
  /\ load_users 101 store_down loaded_cache
     = (Raise "ServiceUnavailable", loaded_cache, [Store.AllUsers])
  /\ overview_page 101 store_down loaded_cache
     = (ErrorMessage
          "❌ Erreur lors du chargement des données: ServiceUnavailable",
        loaded_cache, [Store.AllUsers]).
Proof. repeat split. Qed.

Lemma load_conversations_miss now db c :
  Cache.lookup now (Cache.conversations c) = None ->
  exists c',
    load_conversations now db c
    = (Store.conversations db, c', [Store.AllConversations]).
Proof.
  intros Hmiss. unfold load_conversations, Cache.cache_data. rewrite Hmiss.
  unfold query_conversations. destruct (Store.conversations db); eauto.
Qed.

(** C2. When a loader has no snapshot younger than 60 seconds and the
    store answers its query with an error, the error goes to the caller and
    no list is returned, whether an older snapshot exists or not; the
    overview page turns the error into its error message; the cache is left
    as the failed call found it, so a snapshot of the other collection that
    is still fresh goes on being served, but no later call is served from
    the expired snapshot: each sends the query again and returns what the
    store answers then. *)
Theorem refresh_failure (c : Cache.t) (now : Z) (db : Store.t)
    (message : string) :
  (Cache.lookup now (Cache.users c) = None ->
   Store.users db = Raise message ->
   load_users now db c = (Raise message, c, [Store.AllUsers])
   /\ overview_page now db c
      = (ErrorMessage
           ("❌ Erreur lors du chargement des données: " +:+ message),
         c, [Store.AllUsers])
   /\ (forall later db',
         (now <= later)%Z ->
         exists c',
           load_users later db' c = (Store.users db', c', [Store.AllUsers]))
   /\ (forall later db' conversations,
         Cache.lookup later (Cache.conversations c) = Some conversations ->
         load_conversations later db' c = (Ok conversations, c, [])))
  /\ (Cache.lookup now (Cache.conversations c) = None ->
      Store.conversations db = Raise message ->
      load_conversations now db c
      = (Raise message, c, [Store.AllConversations])
      /\ (forall users c1 sent,
            load_users now db c = (Ok users, c1, sent) ->
            overview_page now db c
            = (ErrorMessage
                 ("❌ Erreur lors du chargement des données: " +:+ message),
               c1, sent ++ [Store.AllConversations]))
      /\ (forall later db',
            (now <= later)%Z ->
            exists c',
              load_conversations later db' c
              = (Store.conversations db', c', [Store.AllConversations]))
      /\ (forall later db' users,
            Cache.lookup later (Cache.users c) = Some users ->
            load_users later db' c = (Ok users, c, []))).
Proof.
  split; intros Hmiss Hdown.
  - pose proof (load_users_failure now db c message Hmiss Hdown) as Hl.
    split; [exact Hl|]. split; [|split].
    + unfold overview_page. rewrite Hl. reflexivity.
    + intros later db' Hlater. apply load_users_miss.
      apply (lookup_none_later now); assumption.
    + intros later db' conversations. apply load_conversations_hit.
  - split; [apply load_conversations_failure; assumption|]. split; [|split].
    + intros users c1 sent Hu. unfold overview_page. rewrite Hu.
      apply load_users_inv in Hu. destruct Hu as [_ Hframe].
      rewrite load_conversations_failure with (message := message);
        [reflexivity | rewrite Hframe; exact Hmiss | exact Hdown].
    + intros later db' Hlater. apply load_conversations_miss.
      apply (lookup_none_later now); assumption.
    + intros later db' users. apply load_users_hit.
Qed.

Lemma refresh_failure_witness :
  Cache.lookup 100 (Cache.users loaded_cache) = None
  /\ Store.users store_down = Raise "ServiceUnavailable"
  /\ load_users 100 store_down loaded_cache
     = (Raise "ServiceUnavailable", loaded_cache, [Store.AllUsers]).
Proof.
  split; [reflexivity|]. split; [reflexivity|].
  apply (proj1 (refresh_failure loaded_cache 100 store_down
                  "ServiceUnavailable"));
    reflexivity.
Defined.

(** ** Overview page: the recent conversations *)

Section RecentConversations.

Implicit Types (c d : Conversation.t) (l : list Conversation.t).

Lemma string_leb_iff (s t : string) :
  String.leb s t = true <-> s = t \/ String_as_OT.lt s t.
Proof.
  unfold String.leb.
  destruct (String.compare s t) eqn:E.
  - apply String_as_OT.cmp_eq in E. tauto.
  - apply String_as_OT.cmp_lt in E. tauto.
  - split; [discriminate|]. intros [->|H].
    + assert (String_as_OT.cmp t t = Eq) as E' by (apply String_as_OT.cmp_eq; reflexivity).
      unfold String_as_OT.cmp in E'. congruence.
    + apply String_as_OT.cmp_lt in H. unfold String_as_OT.cmp in H. congruence.
Qed.

Lemma string_leb_trans (s t u : string) :
  String.leb s t = true -> String.leb t u = true -> String.leb s u = true.
Proof.
  rewrite !string_leb_iff. intros [->|H1] [->|H2]; auto.
  right. eapply String_as_OT.lt_trans; eassumption.
Qed.

Lemma string_leb_refl (s : string) : String.leb s s = true.
Proof. apply string_leb_iff. left. reflexivity. Qed.

(** [ltb] is the negation of the converse [leb]. *)
Lemma string_ltb_leb (s t : string) : String.ltb s t = negb (String.leb t s).
Proof.
  unfold String.ltb, String.leb. rewrite (String.compare_antisym t s).
  destruct (String.compare s t); reflexivity.
Qed.

Lemma not_older_trans c d e : not_older c d -> not_older d e -> not_older c e.
Proof. unfold not_older. intros H1 H2. eapply string_leb_trans; eassumption. Qed.

Lemma insert_desc_perm c l : Permutation (Recent.insert_desc c l) (c :: l).
Proof.
  induction l as [|d l IH]; simpl; [reflexivity|].
  destruct (String.ltb _ _); [|reflexivity].
  rewrite IH. apply perm_swap.
Qed.

Lemma sorted_reverse_perm l : Permutation (Recent.sorted_reverse l) l.
Proof.
  induction l as [|c l IH]; simpl; [reflexivity|].
  rewrite insert_desc_perm, IH. reflexivity.
Qed.

Lemma insert_desc_hd c d l :
  not_older d c -> HdRel not_older d l -> HdRel not_older d (Recent.insert_desc c l).
Proof.
  intros Hdc Hl. destruct l as [|e l]; simpl.
  - constructor. exact Hdc.
  - destruct (String.ltb _ _); constructor; [|exact Hdc].
    inversion Hl. assumption.
Qed.

Lemma insert_desc_sorted c l :
  Sorted not_older l -> Sorted not_older (Recent.insert_desc c l).
Proof.
  induction l as [|d l IH]; simpl; intros Hs.
  - repeat constructor.
  - inversion Hs as [|? ? Hl Hd]; subst.
    destruct (String.ltb (Recent.created c) (Recent.created d)) eqn:E.
    + constructor; [apply IH; exact Hl|].
      apply insert_desc_hd; [|exact Hd].
      unfold not_older. rewrite string_ltb_leb in E.
      destruct (String.leb_total (Recent.created c) (Recent.created d))
        as [H|H]; [exact H|].
      rewrite H in E. discriminate.
    + constructor; [exact Hs|]. constructor.
      unfold not_older. rewrite string_ltb_leb in E.
      apply negb_false_iff in E. exact E.
Qed.

Lemma sorted_reverse_sorted l : Sorted not_older (Recent.sorted_reverse l).
Proof.
  induction l as [|c l IH]; simpl; [constructor|].
  apply insert_desc_sorted. exact IH.
Qed.

(** On a list that is already in descending order the sort moves nothing,
    ties included. *)
Lemma sorted_reverse_presorted l :
  Sorted not_older l -> Recent.sorted_reverse l = l.
Proof.
  induction l as [|c l IH]; simpl; intros Hs; [reflexivity|].
  inversion Hs as [|? ? Hl Hd]; subst. rewrite (IH Hl).
  destruct l as [|d l]; [reflexivity|]. simpl.
  inversion Hd as [|? ? Hcd]; subst. unfold not_older in Hcd.
  rewrite string_ltb_leb, Hcd. reflexivity.
Qed.

Lemma strongly_sorted_app_rel l1 l2 c d :
  StronglySorted not_older (l1 ++ l2) -> In c l1 -> In d l2 -> not_older c d.
Proof.
  induction l1 as [|a l1 IH]; simpl; intros Hs Hc Hd; [contradiction|].
  inversion Hs as [|? ? Hs' Hall]; subst.
  destruct Hc as [->|Hc].
  - rewrite List.Forall_forall in Hall. apply Hall.
    apply in_or_app. right. exact Hd.
  - apply IH; assumption.
Qed.

End RecentConversations.

Example recent_conversations_sample :
  let a := conversation_created "a" "2024-05-01T10:00:00Z" in
  let b := conversation_created "b" "2024-06-01T10:00:00Z" in
  let b' := conversation_created "b2" "2024-06-01T10:00:00Z" in
  let n := Conversation.mk (Some "n") None None None None None in
  Recent.recent_conversations [a; n; b; b'] = [b; b'; a; n].
Proof. reflexivity. Qed.

(** X1. The recent conversations of the overview page are at most ten, as
    many as the snapshot has when it has fewer; they come newest first by
    [createdAt] (an absent date counting as the empty string, hence
    oldest); together with the conversations left out they are the
    snapshot, each conversation as often as it is there; and no
    conversation left out is newer than one that is shown. *)
Theorem recent_conversations_newest (conversations : list Conversation.t) :
  length (Recent.recent_conversations conversations)
  = Nat.min 10 (length conversations)
  /\ Sorted not_older (Recent.recent_conversations conversations)
  /\ exists left_out,
       Permutation (Recent.recent_conversations conversations ++ left_out)
                   conversations
       /\ forall shown other,
            In shown (Recent.recent_conversations conversations) ->
            In other left_out -> not_older shown other.
Proof.
  unfold Recent.recent_conversations.
  pose proof (sorted_reverse_sorted conversations) as Hs.
  pose proof (sorted_reverse_perm conversations) as Hp.
  split; [|split].
  - rewrite length_firstn, (Permutation_length Hp). reflexivity.
  - set (l := Recent.sorted_reverse conversations) in *. clearbody l.
    clear Hp. revert Hs. generalize 10%nat. induction l as [|c l IH];
      intros n Hs; destruct n; simpl; try constructor.
    + inversion Hs; subst. apply IH. assumption.
    + inversion Hs as [|? ? Hl Hd]; subst.
      destruct l, n; simpl; constructor. inversion Hd. assumption.
  - exists (skipn 10 (Recent.sorted_reverse conversations)). split.
    + rewrite firstn_skipn. exact Hp.
    + intros shown other Hin Hout.
      apply (strongly_sorted_app_rel
               (firstn 10 (Recent.sorted_reverse conversations))
               (skipn 10 (Recent.sorted_reverse conversations)));
        [|assumption|assumption].
      rewrite firstn_skipn. apply Sorted_StronglySorted; [|exact Hs].
      intros x y z. apply not_older_trans.
Qed.

(** X2. On a snapshot that already comes newest first, the order in which
    the query returns it, the recent conversations are its first ten:
    sorting again moves nothing, and conversations created at the same
    time keep the order of the store. *)
Theorem recent_conversations_presorted (conversations : list Conversation.t) :
  Sorted not_older conversations ->
  Recent.recent_conversations conversations = firstn 10 conversations.
Proof.
  intros Hs. unfold Recent.recent_conversations.
  rewrite sorted_reverse_presorted by exact Hs. reflexivity.
Qed.

Lemma recent_conversations_presorted_witness :
  let b := conversation_created "b" "2024-06-01T10:00:00Z" in
  let b' := conversation_created "b2" "2024-06-01T10:00:00Z" in
  let a := conversation_created "a" "2024-05-01T10:00:00Z" in
  Sorted not_older [b; b'; a]
  /\ Recent.recent_conversations [b; b'; a] = firstn 10 [b; b'; a].
Proof.
  intros b b' a.
  assert (H : Sorted not_older [b; b'; a])
    by (repeat constructor; reflexivity).
  split; [exact H|].
  apply (recent_conversations_presorted [b; b'; a] H).
Defined.

(** ** Users page: choices, filters and exports together *)

Section FilterAlgebra.

Context {A : Type}.
Implicit Types (p q : A -> bool) (l : list A).

Lemma filter_and p q l :
  List.filter q (List.filter p l) = List.filter (fun x => p x && q x) l.
Proof.
  induction l as [|x l IH]; simpl; [reflexivity|].
  destruct (p x); simpl; [destruct (q x)|]; congruence.
Qed.

Lemma filter_same p q l :
  (forall x, p x = q x) -> List.filter p l = List.filter q l.
Proof.
  intros E. induction l as [|x l IH]; simpl; [reflexivity|].
  rewrite E, IH. reflexivity.
Qed.

Lemma filter_all p l : (forall x, p x = true) -> List.filter p l = l.
Proof.
  intros E. induction l as [|x l IH]; simpl; [reflexivity|].
  rewrite E, IH. reflexivity.
Qed.

Lemma filter_split_length p l :
  length (List.filter p l) + length (List.filter (fun x => negb (p x)) l)
  = length l.
Proof.
  induction l as [|x l IH]; simpl; [reflexivity|].
  destruct (p x); simpl; lia.
Qed.

(** A stronger test keeps a subsequence of what a weaker test keeps. *)
Lemma filter_sublist_weaker p q l :
  (forall x, q x = true -> p x = true) ->
  List.filter q l `sublist_of` List.filter p l.
Proof.
  intros W. induction l as [|x l IH]; simpl; [constructor|].
  destruct (q x) eqn:Q.
  - rewrite (W x Q). constructor. exact IH.
  - destruct (p x); [constructor|]; exact IH.
Qed.

Lemma filter_empty_iff p l :
  List.filter p l = [] <-> forall x, In x l -> p x = false.
Proof.
  induction l as [|x l IH]; simpl.
  - split; [intros _ x []|reflexivity].
  - destruct (p x) eqn:P; split.
    + discriminate.
    + intros H. specialize (H x (or_introl eq_refl)). congruence.
    + intros H y [<-|Hy]; [exact P|]. apply IH; assumption.
    + intros H. apply IH. intros y Hy. apply H. right. exact Hy.
Qed.

End FilterAlgebra.

(** Brings a chain of filters to one filter and compares the tests. *)
Ltac filter_chain :=
  simpl; rewrite ?filter_and;
  try reflexivity;
  apply filter_same; intros ?;
  repeat match goal with
         | |- context [Py.eq_str ?a ?b] => destruct (Py.eq_str a b)
         | |- context [default false ?a] => destruct (default false a)
         | |- context [Py.str_in ?a ?b] => destruct (Py.str_in a b)
         | |- context [Z.leb ?a ?b] => destruct (Z.leb a b)
         end;
  reflexivity.

Lemma plan_options_In (users : list User.t) (p : string) :
  In p (tail (UsersPage.plan_options users))
  <-> exists u, In u users /\ default "unknown" (User.plan u) = p.
Proof.
  unfold UsersPage.plan_options. simpl.
  rewrite <- list_elem_of_In, elem_of_elements, elem_of_list_to_set.
  rewrite list_elem_of_In, in_map_iff. split; intros [u H]; exists u; tauto.
Qed.

Lemma plan_option_of_user (users : list User.t) (u : User.t) :
  In u users ->
  In (default "unknown" (User.plan u)) (UsersPage.plan_options users).
Proof.
  intros Hu. apply in_cons. apply plan_options_In. exists u. auto.
Qed.

(** X3. The plan select box lists "Tous" first and then, each once, the
    plans of the loaded users, the plan of a user without a [plan] field
    reading "unknown"; nothing else is offered. *)
Theorem plan_options_complete (users : list User.t) :
  exists plans,
    UsersPage.plan_options users = "Tous" :: plans
    /\ NoDup plans
    /\ forall p,
         In p plans
         <-> exists u,
               In u users
               /\ (User.plan u = Some p \/ User.plan u = None /\ p = "unknown").
Proof.
  exists (tail (UsersPage.plan_options users)). split; [reflexivity|]. split.
  - unfold UsersPage.plan_options. simpl. apply NoDup_elements.
  - intros p. rewrite plan_options_In.
    split; intros [u [Hu Hp]]; exists u; (split; [exact Hu|]).
    + destruct (User.plan u); simpl in Hp; [left; congruence | right; auto].
    + destruct Hp as [-> | [-> ->]]; reflexivity.
Qed.

(** X4. A plan offered by the select box, other than "Tous", selects no
    user at all exactly when it is "unknown" and no user stores the literal
    plan "unknown": every other choice shows at least one user. *)
Theorem offered_plan_selects (users : list User.t) (filter_plan : string) :
  In filter_plan (UsersPage.plan_options users) ->
  filter_plan <> "Tous" ->
  (UsersPage.filtered_users filter_plan "Tous" users = []
   <-> filter_plan = "unknown"
       /\ forall u, In u users -> User.plan u <> Some "unknown").
Proof.
  intros Hin Hne.
  assert (Hoff : exists u, In u users
                    /\ default "unknown" (User.plan u) = filter_plan).
  { apply plan_options_In. destruct Hin as [H|H]; [congruence | exact H]. }
  unfold UsersPage.filtered_users.
  apply String.eqb_neq in Hne. rewrite Hne. simpl.
  rewrite filter_empty_iff. split.
  - intros Hnone. destruct Hoff as [u [Hu Hp]].
    pose proof (Hnone u Hu) as Hf.
    destruct (User.plan u) as [q|] eqn:Eq; simpl in Hp, Hf.
    + subst q. rewrite String.eqb_refl in Hf. discriminate.
    + subst filter_plan. split; [reflexivity|].
      intros v Hv Hs. specialize (Hnone v Hv). rewrite Hs in Hnone.
      simpl in Hnone. discriminate.
  - intros [-> Hnot] u Hu. specialize (Hnot u Hu).
    destruct (User.plan u) as [q|]; simpl; [|reflexivity].
    apply String.eqb_neq. congruence.
Qed.

Lemma offered_plan_selects_witness :
  In "pro" (UsersPage.plan_options
              [sample_user None (Some "pro") None; user_without_plan])
  /\ "pro" <> "Tous"
  /\ UsersPage.filtered_users "pro" "Tous"
       [sample_user None (Some "pro") None; user_without_plan] <> [].
Proof.
  assert (Hin : In "pro" (UsersPage.plan_options
                  [sample_user None (Some "pro") None; user_without_plan])).
  { apply (plan_option_of_user _ (sample_user None (Some "pro") None)).
    left. reflexivity. }
  assert (Hne : "pro" <> "Tous") by discriminate.
  split; [exact Hin|]. split; [exact Hne|].
  intros Hempty.
  apply (offered_plan_selects _ "pro" Hin Hne) in Hempty.
  destruct Hempty as [Habs _]. discriminate Habs.
Defined.

(** X5. The verified users counted on the overview page are the users the
    "Vérifiés" choice lists, and for every plan choice the "Vérifiés" and
    the "Non vérifiés" lists split the list of that plan: each user of the
    plan is in exactly as many of the two as it is in the plan's list. *)
Theorem verified_split (filter_plan : string) (users : list User.t) :
  Overview.verified_users users
  = length (UsersPage.filtered_users "Tous" "Vérifiés" users)
  /\ (length (UsersPage.filtered_users filter_plan "Vérifiés" users)
      + length (UsersPage.filtered_users filter_plan "Non vérifiés" users)
      = length (UsersPage.filtered_users filter_plan "Tous" users))%nat
  /\ (Overview.verified_users users <= length users)%nat.
Proof.
  split; [|split].
  - rewrite verified_users_count. reflexivity.
  - unfold UsersPage.filtered_users. simpl.
    apply filter_split_length.
  - rewrite verified_users_count. unfold count_if.
    apply sublist_length, filter_sublist.
Qed.

(** X6. The two user filters can be applied in either order and one at a
    time with the same result, and filtering a filtered list again with the
    same choices changes nothing. *)
Theorem filtered_users_compose (filter_plan filter_verified : string)
    (users : list User.t) :
  UsersPage.filtered_users filter_plan filter_verified users
  = UsersPage.filtered_users "Tous" filter_verified
      (UsersPage.filtered_users filter_plan "Tous" users)
  /\ UsersPage.filtered_users filter_plan filter_verified users
     = UsersPage.filtered_users filter_plan "Tous"
         (UsersPage.filtered_users "Tous" filter_verified users)
  /\ UsersPage.filtered_users filter_plan filter_verified
       (UsersPage.filtered_users filter_plan filter_verified users)
     = UsersPage.filtered_users filter_plan filter_verified users.
Proof.
  unfold UsersPage.filtered_users.
  change (String.eqb "Tous" "Tous") with true.
  change (String.eqb "Tous" "Vérifiés") with false.
  change (String.eqb "Tous" "Non vérifiés") with false.
  destruct (String.eqb filter_plan "Tous");
    destruct (String.eqb filter_verified "Vérifiés");
    destruct (String.eqb filter_verified "Non vérifiés");
    repeat split; filter_chain.
Qed.

(** ** Users page: what the exports carry *)

Lemma in_export_data (filtered_users : list User.t) (r : UsersPage.row) :
  In r (UsersPage.export_data filtered_users)
  <-> exists u, In u filtered_users /\ r = UsersPage.export_row u.
Proof.
  rewrite export_data_map, in_map_iff.
  split; intros [u [H1 H2]]; exists u; auto.
Qed.

(** X7. The full export of a filtered list has one row per listed user.
    When a plan is selected, every row carries that plan in its Plan cell
    (no row stands for a user without a plan); under "Vérifiés" every row
    says "Oui" in the Vérifié cell and under "Non vérifiés" every row says
    "Non". *)
Theorem export_of_filtered (filter_plan filter_verified : string)
    (users : list User.t) :
  let listed := UsersPage.filtered_users filter_plan filter_verified users in
  length (UsersPage.export_data listed) = length listed
  /\ (length (UsersPage.export_data listed) <= length users)%nat
  /\ forall r,
       In r (UsersPage.export_data listed) ->
       (filter_plan <> "Tous" ->
        UsersPage.cell_of "Plan" r = Some (UsersPage.Text filter_plan))
       /\ (filter_verified = "Vérifiés" ->
           UsersPage.cell_of "Vérifié" r = Some (UsersPage.Text "Oui"))
       /\ (filter_verified = "Non vérifiés" ->
           UsersPage.cell_of "Vérifié" r = Some (UsersPage.Text "Non")).
Proof.
  intros listed.
  assert (L : length (UsersPage.export_data listed) = length listed)
    by (rewrite export_data_map; apply length_map).
  split; [exact L|]. split.
  { rewrite L. apply sublist_length. apply filtered_users_sublist. }
  intros r Hr. apply in_export_data in Hr. destruct Hr as [u [Hu ->]].
  apply filtered_users_In in Hu. destruct Hu as [_ [Hp [Hv Hn]]].
  unfold verified in Hv, Hn. repeat split.
  - intros Hne. destruct Hp as [Ht|Hs]; [contradiction|].
    simpl. rewrite Hs. reflexivity.
  - intros E. simpl. rewrite (Hv E). reflexivity.
  - intros E. simpl. specialize (Hn E).
    destruct (default false (User.is_verified u)); [contradiction Hn|]; reflexivity.
Qed.

Lemma export_of_filtered_witness :
  "Vérifiés" = "Vérifiés"
  /\ UsersPage.export_data
       (UsersPage.filtered_users "Tous" "Vérifiés" [user_without_plan])
     <> []
  /\ forall r,
       In r (UsersPage.export_data
               (UsersPage.filtered_users "Tous" "Vérifiés" [user_without_plan])) ->
       UsersPage.cell_of "Vérifié" r = Some (UsersPage.Text "Oui").
Proof.
  split; [reflexivity|]. split; [discriminate|].
  intros r Hr.
  apply (proj2 (proj2 (export_of_filtered "Tous" "Vérifiés" [user_without_plan]))
           r Hr).
  reflexivity.
Defined.

Lemma cell_of_Some (column : string) (r : UsersPage.row) :
  is_Some (UsersPage.cell_of column r) <-> In column (UsersPage.columns r).
Proof.
  unfold UsersPage.columns. induction r as [|[k v] r IH]; simpl.
  - split; [intros [x H]; discriminate | intros []].
  - destruct (String.eqb_spec k column) as [->|Hne].
    + split; [auto | eauto].
    + rewrite IH. split; [auto | intros [H|H]; [contradiction | exact H]].
Qed.

(** X8. The short export is the full export cut after its second column:
    row by row its cells are the first two cells of the full row, so the
    two files agree on Email and Plan; and a row answers exactly for the
    columns of its sheet, a look-up under any other name finds no cell. *)
Theorem simple_export_agrees (filtered_users : list User.t) :
  UsersPage.simple_data filtered_users
  = map (firstn 2) (UsersPage.export_data filtered_users)
  /\ (forall u column,
        In column ["Email"; "Plan"] ->
        UsersPage.cell_of column (UsersPage.simple_row u)
        = UsersPage.cell_of column (UsersPage.export_row u))
  /\ (forall u column,
        (is_Some (UsersPage.cell_of column (UsersPage.export_row u))
         <-> In column ["Email"; "Plan"; "Prénom"; "Nom"; "Vérifié";
                        "Créé le"; "Requêtes quotidiennes"])
        /\ (is_Some (UsersPage.cell_of column (UsersPage.simple_row u))
            <-> In column ["Email"; "Plan"])).
Proof.
  split; [|split].
  - rewrite export_data_map, map_map. reflexivity.
  - intros u column [<-|[<-|[]]]; reflexivity.
  - intros u column. split; apply cell_of_Some.
Qed.

(** ** Conversations page: the filters together *)

Lemma lower_eq_truthy {L : Py.Lower} (s t : string) :
  Py.lower s = Py.lower t -> Py.truthy s = Py.truthy t.
Proof. intros E. rewrite <- (lower_truthy s), <- (lower_truthy t), E. reflexivity. Qed.

(** X9. The two conversation filters can be applied in either order and
    one at a time with the same result, and filtering a filtered list
    again with the same settings changes nothing. *)
Theorem filtered_convs_compose {L : Py.Lower} (search_term : string)
    (min_messages : Z)
    (conversations : list Conversation.t) :
  ConversationsPage.filtered_convs search_term min_messages conversations
  = ConversationsPage.filtered_convs "" min_messages
      (ConversationsPage.filtered_convs search_term 0 conversations)
  /\ ConversationsPage.filtered_convs search_term min_messages conversations
     = ConversationsPage.filtered_convs search_term 0
         (ConversationsPage.filtered_convs "" min_messages conversations)
  /\ ConversationsPage.filtered_convs search_term min_messages
       (ConversationsPage.filtered_convs search_term min_messages conversations)
     = ConversationsPage.filtered_convs search_term min_messages conversations.
Proof.
  unfold ConversationsPage.filtered_convs.
  change (Py.truthy "") with false. change (0 <? 0)%Z with false.
  destruct (Py.truthy search_term); destruct (0 <? min_messages)%Z;
    repeat split; filter_chain.
Qed.

(** X10. Raising the minimum message count can only remove conversations:
    the list for the higher minimum is a subsequence of the list for the
    lower one, the title term being the same. *)
Theorem filtered_convs_min_monotone {L : Py.Lower} (search_term : string)
    (m1 m2 : Z)
    (conversations : list Conversation.t) :
  (m1 <= m2)%Z ->
  ConversationsPage.filtered_convs search_term m2 conversations
  `sublist_of`
  ConversationsPage.filtered_convs search_term m1 conversations.
Proof.
  intros Hle. unfold ConversationsPage.filtered_convs. cbv zeta.
  set (l := if Py.truthy search_term then _ else _). clearbody l.
  destruct (Z.ltb_spec 0 m1) as [H1|H1];
    destruct (Z.ltb_spec 0 m2) as [H2|H2]; try lia.
  - apply filter_sublist_weaker. intros c Hc.
    apply Z.leb_le. apply Z.leb_le in Hc. lia.
  - apply filter_sublist.
  - reflexivity.
Qed.

Lemma filtered_convs_min_monotone_witness :
  (1 <= 2)%Z
  /\ ConversationsPage.filtered_convs (L := Py.ascii_lowering) "" 2
       [hello_conversation; goodbye_conversation]
     `sublist_of`
     ConversationsPage.filtered_convs (L := Py.ascii_lowering) "" 1
       [hello_conversation; goodbye_conversation].
Proof.
  split; [lia|].
  apply (filtered_convs_min_monotone (L := Py.ascii_lowering) "" 1 2
           [hello_conversation; goodbye_conversation]).
  lia.
Defined.

(** ** Search page and title filter: how the terms behave *)

Section Terms.

Context {L : Py.Lower}.

Implicit Types (s t u : string).

Lemma string_append_assoc s t u : (s +:+ t) +:+ u = s +:+ (t +:+ u).
Proof.
  induction s as [|c s IH]; [reflexivity|].
  rewrite !append_cons, IH. reflexivity.
Qed.

(** A block of a block is a block. *)
Lemma str_in_trans s t u :
  Py.str_in s t = true -> Py.str_in t u = true -> Py.str_in s u = true.
Proof.
  rewrite !str_in_spec. intros [a [b Ht]] [c [d Hu]].
  exists (c +:+ a), (b +:+ d). subst.
  rewrite !string_append_assoc. reflexivity.
Qed.

(** A term in which a non-empty term occurs is not empty. *)
Lemma str_in_lower_truthy s t :
  Py.truthy s = true -> Py.str_in (Py.lower s) (Py.lower t) = true ->
  Py.truthy t = true.
Proof.
  intros Hs Hin. destruct t as [|c t]; [|reflexivity].
  rewrite str_in_lower_empty in Hin by exact Hs. discriminate.
Qed.

Lemma has_match_weaker s t (conv : Conversation.t) :
  Py.str_in (Py.lower s) (Py.lower t) = true ->
  has_match t conv = true -> has_match s conv = true.
Proof.
  intros Hst. unfold has_match. rewrite !existsb_exists.
  intros [msg [Hin Hm]]. exists msg. split; [exact Hin|].
  unfold SearchPage.content_matches in *. eapply str_in_trans; eassumption.
Qed.

Lemma ascii_lower_app s t :
  Py.ascii_lower (s +:+ t) = Py.ascii_lower s +:+ Py.ascii_lower t.
Proof.
  induction s as [|c s IH]; [reflexivity|].
  rewrite append_cons. cbn [Py.ascii_lower]. rewrite IH, append_cons.
  reflexivity.
Qed.

(** A block of an ASCII text is still one after lowering. *)
Lemma str_in_ascii_lower s t :
  Py.str_in s t = true ->
  Py.str_in (Py.ascii_lower s) (Py.ascii_lower t) = true.
Proof.
  rewrite !str_in_spec. intros [a [b ->]].
  exists (Py.ascii_lower a), (Py.ascii_lower b).
  rewrite !ascii_lower_app. reflexivity.
Qed.

End Terms.

Lemma search_users_sublist {L : Py.Lower} search_email search_user_id (users : list User.t) :
  SearchPage.search_users search_email search_user_id users `sublist_of` users.
Proof.
  unfold SearchPage.search_users.
  destruct (Py.truthy search_email); [apply filter_sublist|].
  destruct (Py.truthy search_user_id); [apply filter_sublist|].
  apply sublist_nil_l.
Qed.

Lemma search_conversations_sublist {L : Py.Lower} search_conv_id search_keyword
    (conversations : list Conversation.t) :
  SearchPage.search_conversations search_conv_id search_keyword conversations
  `sublist_of` conversations.
Proof.
  unfold SearchPage.search_conversations.
  destruct (Py.truthy search_conv_id); [apply filter_sublist|].
  destruct (Py.truthy search_keyword); [|apply sublist_nil_l].
  rewrite keyword_search_filter. apply filter_sublist.
Qed.

(** X11. Whatever is typed, a search returns a subsequence of the loaded
    snapshot: records are neither made up nor reordered, and a record is
    returned at most as often as it is stored.  With both fields of a
    search form empty the result is empty, whatever is stored. *)
Theorem search_results_subsequence {L : Py.Lower}
    (search_email search_user_id : string) (users : list User.t)
    (search_conv_id search_keyword : string)
    (conversations : list Conversation.t) :
  SearchPage.search_users search_email search_user_id users `sublist_of` users
  /\ SearchPage.search_conversations search_conv_id search_keyword conversations
     `sublist_of` conversations
  /\ SearchPage.search_users "" "" users = []
  /\ SearchPage.search_conversations "" "" conversations = [].
Proof.
  split; [apply search_users_sublist|].
  split; [apply search_conversations_sublist|].
  split; reflexivity.
Qed.

(** X12. With the email field empty and a user id typed, the user search
    returns exactly the stored users whose [id] field holds that very
    string, all of them when several do; a user without an [id] field is
    never returned. *)
Theorem user_id_search {L : Py.Lower} (search_user_id : string)
    (users : list User.t) :
  search_user_id <> "" ->
  (forall u,
     In u (SearchPage.search_users "" search_user_id users)
     <-> In u users /\ User.id u = Some search_user_id)
  /\ length (SearchPage.search_users "" search_user_id users)
     = count_if (fun u => Py.eq_str (User.id u) search_user_id) users
  /\ (forall u,
        User.id u = None ->
        ~ In u (SearchPage.search_users "" search_user_id users)).
Proof.
  intros Hid. apply truthy_true in Hid.
  unfold SearchPage.search_users. cbn [Py.truthy]. rewrite Hid.
  split; [|split].
  - intros u. rewrite filter_In, eq_str_spec. reflexivity.
  - reflexivity.
  - intros u Hnone Hin. apply filter_In in Hin. destruct Hin as [_ Hin].
    rewrite Hnone in Hin. discriminate.
Qed.

Lemma user_id_search_witness :
  "u-1" <> ""
  /\ (In user_without_plan
        (SearchPage.search_users (L := Py.ascii_lowering) "" "u-1"
           [user_without_plan])
      <-> In user_without_plan [user_without_plan]
          /\ User.id user_without_plan = Some "u-1").
Proof.
  split; [discriminate|].
  apply (proj1 (user_id_search (L := Py.ascii_lowering) "u-1"
                  [user_without_plan] ltac:(discriminate))).
Defined.

(** A filter applied to a subsequence gives a subsequence of the filtered
    list. *)
Lemma filter_sublist_mono {A} (p : A -> bool) (l1 l2 : list A) :
  l1 `sublist_of` l2 -> List.filter p l1 `sublist_of` List.filter p l2.
Proof.
  intros S. induction S as [|x l l' S IH|x l l' S IH]; simpl.
  - constructor.
  - destruct (p x); [constructor|]; exact IH.
  - destruct (p x); [constructor|]; exact IH.
Qed.

Lemma same_lowering_same_results {L : Py.Lower} (term1 term2 : string)
    (min_messages : Z) (conversations : list Conversation.t)
    (search_user_id : string) (users : list User.t) :
  Py.lower term1 = Py.lower term2 ->
  ConversationsPage.filtered_convs term1 min_messages conversations
  = ConversationsPage.filtered_convs term2 min_messages conversations
  /\ SearchPage.search_users term1 search_user_id users
     = SearchPage.search_users term2 search_user_id users
  /\ SearchPage.search_conversations "" term1 conversations
     = SearchPage.search_conversations "" term2 conversations.
Proof.
  intros E. pose proof (lower_eq_truthy _ _ E) as T.
  unfold ConversationsPage.filtered_convs, SearchPage.search_users,
    SearchPage.search_conversations, SearchPage.email_matches.
  cbn [Py.truthy]. rewrite T, E. split; [reflexivity|].
  split; [reflexivity|].
  destruct (Py.truthy term2); [|reflexivity].
  rewrite !keyword_search_filter. apply filter_same. intros c.
  unfold has_match, SearchPage.content_matches. rewrite E. reflexivity.
Qed.

(** X13. The three text searches ignore the case of what is typed: two
    terms that [str.lower] sends to the same string give the same title
    filter result, the same email search result and the same keyword
    search result; so do, in particular, two terms of ASCII characters that
    differ only in the case of their letters. *)
Theorem search_terms_ignore_case {L : Py.Lower} (term1 term2 : string)
    (min_messages : Z) (conversations : list Conversation.t)
    (search_user_id : string) (users : list User.t) :
  let same_results :=
    ConversationsPage.filtered_convs term1 min_messages conversations
    = ConversationsPage.filtered_convs term2 min_messages conversations
    /\ SearchPage.search_users term1 search_user_id users
       = SearchPage.search_users term2 search_user_id users
    /\ SearchPage.search_conversations "" term1 conversations
       = SearchPage.search_conversations "" term2 conversations in
  (Py.lower term1 = Py.lower term2 -> same_results)
  /\ (Py.is_ascii term1 = true ->
      Py.is_ascii term2 = true ->
      Py.ascii_lower term1 = Py.ascii_lower term2 ->
      same_results).
Proof.
  cbv zeta. split.
  - apply same_lowering_same_results.
  - intros A1 A2 E. apply same_lowering_same_results.
    rewrite (Py.lower_ascii term1 A1), (Py.lower_ascii term2 A2). exact E.
Qed.

Lemma search_terms_ignore_case_witness :
  Py.is_ascii "WORLD" = true
  /\ Py.is_ascii "World" = true
  /\ Py.ascii_lower "WORLD" = Py.ascii_lower "World"
  /\ SearchPage.search_conversations (L := Py.ascii_lowering) "" "WORLD"
       [hello_conversation; goodbye_conversation]
     = SearchPage.search_conversations (L := Py.ascii_lowering) "" "World"
         [hello_conversation; goodbye_conversation].
Proof.
  split; [reflexivity|]. split; [reflexivity|]. split; [reflexivity|].
  apply (proj2 (search_terms_ignore_case (L := Py.ascii_lowering)
                  "WORLD" "World" 0
                  [hello_conversation; goodbye_conversation] "" [])
           eq_refl eq_refl eq_refl).
Defined.

(** With [str.lower] itself: "WORLD" finds what "world" finds. *)
Example search_terms_ignore_case_sample {L : Py.Lower}
    (conversations : list Conversation.t) :
  SearchPage.search_conversations "" "WORLD" conversations
  = SearchPage.search_conversations "" "world" conversations.
Proof.
  apply (same_lowering_same_results "WORLD" "world" 0 conversations "" []).
  lower_literals. reflexivity.
Qed.

Lemma lowered_block_narrows {L : Py.Lower} (term1 term2 : string)
    (min_messages : Z) (conversations : list Conversation.t)
    (search_user_id : string) (users : list User.t) :
  term1 <> "" ->
  Py.str_in (Py.lower term1) (Py.lower term2) = true ->
  ConversationsPage.filtered_convs term2 min_messages conversations
  `sublist_of`
  ConversationsPage.filtered_convs term1 min_messages conversations
  /\ SearchPage.search_users term2 search_user_id users
     `sublist_of` SearchPage.search_users term1 search_user_id users
  /\ SearchPage.search_conversations "" term2 conversations
     `sublist_of` SearchPage.search_conversations "" term1 conversations.
Proof.
  intros H1 Hin. apply truthy_true in H1.
  pose proof (str_in_lower_truthy _ _ H1 Hin) as H2.
  unfold ConversationsPage.filtered_convs, SearchPage.search_users,
    SearchPage.search_conversations.
  cbn [Py.truthy]. rewrite H1, H2. split; [|split].
  - assert (S : List.filter
                  (fun c => Py.str_in (Py.lower term2)
                              (Py.lower (default "" (Conversation.title c))))
                  conversations
                `sublist_of`
                List.filter
                  (fun c => Py.str_in (Py.lower term1)
                              (Py.lower (default "" (Conversation.title c))))
                  conversations).
    { apply filter_sublist_weaker. intros c. apply str_in_trans. exact Hin. }
    destruct (0 <? min_messages)%Z; [|exact S].
    apply filter_sublist_mono. exact S.
  - apply filter_sublist_weaker. intros u.
    unfold SearchPage.email_matches. apply str_in_trans. exact Hin.
  - rewrite !keyword_search_filter. apply filter_sublist_weaker.
    intros c. apply has_match_weaker. exact Hin.
Qed.

(** X14. When the form [str.lower] gives to a non-empty term occurs in the
    form it gives to a second term, what the second term finds is a
    subsequence of what the first finds, for the title filter, the email
    search and the keyword search alike.  This is so, in particular, when
    both terms are of ASCII characters and the first occurs in the second:
    there, typing more characters narrows the search.  (Beyond ASCII a
    longer term can lower differently: the sigma of a term is written
    otherwise at its end.) *)
Theorem longer_term_narrows {L : Py.Lower} (term1 term2 : string)
    (min_messages : Z) (conversations : list Conversation.t)
    (search_user_id : string) (users : list User.t) :
  term1 <> "" ->
  let narrows :=
    ConversationsPage.filtered_convs term2 min_messages conversations
    `sublist_of`
    ConversationsPage.filtered_convs term1 min_messages conversations
    /\ SearchPage.search_users term2 search_user_id users
       `sublist_of` SearchPage.search_users term1 search_user_id users
    /\ SearchPage.search_conversations "" term2 conversations
       `sublist_of` SearchPage.search_conversations "" term1 conversations in
  (Py.str_in (Py.lower term1) (Py.lower term2) = true -> narrows)
  /\ (Py.is_ascii term1 = true ->
      Py.is_ascii term2 = true ->
      Py.str_in term1 term2 = true ->
      narrows).
Proof.
  intros H1. cbv zeta. split.
  - apply lowered_block_narrows. exact H1.
  - intros A1 A2 Hin. apply lowered_block_narrows; [exact H1|].
    rewrite (Py.lower_ascii term1 A1), (Py.lower_ascii term2 A2).
    apply str_in_ascii_lower. exact Hin.
Qed.

Lemma longer_term_narrows_witness :
  "o" <> ""
  /\ Py.is_ascii "o" = true
  /\ Py.is_ascii "World" = true
  /\ Py.str_in "o" "World" = true
  /\ SearchPage.search_conversations (L := Py.ascii_lowering) "" "World"
       [hello_conversation; goodbye_conversation]
     `sublist_of`
     SearchPage.search_conversations (L := Py.ascii_lowering) "" "o"
       [hello_conversation; goodbye_conversation].
Proof.
  split; [discriminate|]. split; [reflexivity|]. split; [reflexivity|].
  split; [reflexivity|].
  apply (proj2 (longer_term_narrows (L := Py.ascii_lowering) "o" "World" 0
                  [hello_conversation; goodbye_conversation] "" []
                  ltac:(discriminate))
           eq_refl eq_refl eq_refl).
Defined.

(** ** Cache: the freshness window, the refresh button, the overview page *)

Lemma load_users_reload now db c users :
  Cache.lookup now (Cache.users c) = None ->
  Store.users db = Ok users ->
  load_users now db c
  = (Ok users,
     Cache.mk (Some (Cache.mk_entry users now)) (Cache.conversations c),
     [Store.AllUsers]).
Proof.
  intros Hmiss Hup. unfold load_users.
  rewrite (cache_data_miss_ok now _ _ users [Store.AllUsers] Hmiss)
    by (unfold query_users; rewrite Hup; reflexivity).
  reflexivity.
Qed.

Lemma load_conversations_reload now db c conversations :
  Cache.lookup now (Cache.conversations c) = None ->
  Store.conversations db = Ok conversations ->
  load_conversations now db c
  = (Ok conversations,
     Cache.mk (Cache.users c) (Some (Cache.mk_entry conversations now)),
     [Store.AllConversations]).
Proof.
  intros Hmiss Hup. unfold load_conversations.
  rewrite (cache_data_miss_ok now _ _ conversations [Store.AllConversations]
             Hmiss)
    by (unfold query_conversations; rewrite Hup; reflexivity).
  reflexivity.
Qed.

Lemma lookup_stored {A} (v : A) (stored now : Z) :
  Cache.lookup now (Some (Cache.mk_entry v stored))
  = if (now <? stored + 60)%Z then Some v else None.
Proof. reflexivity. Qed.

Example window_sample :
  Cache.lookup 59 (Cache.users loaded_cache) = Some [user_without_plan]
  /\ Cache.lookup 60 (Cache.users loaded_cache) = None
  /\ Cache.lookup (-5) (Cache.users loaded_cache) = Some [user_without_plan].
Proof. repeat split. Qed.

(** X15. A snapshot loaded from the store at clock reading [now] is served
    without any query at every reading before [now + 60], whatever the
    store holds by then, and from [now + 60] on the next call sends
    exactly one query and hands out what the store answers; so for users,
    so for conversations. *)
Theorem freshness_window (c : Cache.t) (now : Z) (db : Store.t) :
  (forall users,
     Cache.lookup now (Cache.users c) = None ->
     Store.users db = Ok users ->
     let c1 := Cache.mk (Some (Cache.mk_entry users now))
                        (Cache.conversations c) in
     load_users now db c = (Ok users, c1, [Store.AllUsers])
     /\ forall later db',
          ((later < now + 60)%Z ->
           load_users later db' c1 = (Ok users, c1, []))
          /\ ((now + 60 <= later)%Z ->
              exists c2,
                load_users later db' c1
                = (Store.users db', c2, [Store.AllUsers])))
  /\ (forall conversations,
        Cache.lookup now (Cache.conversations c) = None ->
        Store.conversations db = Ok conversations ->
        let c1 := Cache.mk (Cache.users c)
                           (Some (Cache.mk_entry conversations now)) in
        load_conversations now db c
        = (Ok conversations, c1, [Store.AllConversations])
        /\ forall later db',
             ((later < now + 60)%Z ->
              load_conversations later db' c1 = (Ok conversations, c1, []))
             /\ ((now + 60 <= later)%Z ->
                 exists c2,
                   load_conversations later db' c1
                   = (Store.conversations db', c2, [Store.AllConversations]))).
Proof.
  split.
  - intros users Hmiss Hup c1. split.
    + apply load_users_reload; assumption.
    + intros later db'. split; intros Hl.
      * apply load_users_hit. subst c1. cbn [Cache.users].
        rewrite lookup_stored.
        destruct (Z.ltb_spec later (now + 60)); [reflexivity | lia].
      * apply load_users_miss. subst c1. cbn [Cache.users].
        rewrite lookup_stored.
        destruct (Z.ltb_spec later (now + 60)); [lia | reflexivity].
  - intros conversations Hmiss Hup c1. split.
    + apply load_conversations_reload; assumption.
    + intros later db'. split; intros Hl.
      * apply load_conversations_hit. subst c1. cbn [Cache.conversations].
        rewrite lookup_stored.
        destruct (Z.ltb_spec later (now + 60)); [reflexivity | lia].
      * apply load_conversations_miss. subst c1. cbn [Cache.conversations].
        rewrite lookup_stored.
        destruct (Z.ltb_spec later (now + 60)); [lia | reflexivity].
Qed.

Lemma freshness_window_witness :
  Cache.lookup 100 (Cache.users loaded_cache) = None
  /\ Store.users store_up = Ok [user_without_plan]
  /\ load_users 100 store_up loaded_cache
     = (Ok [user_without_plan],
        Cache.mk (Some (Cache.mk_entry [user_without_plan] 100))
                 (Cache.conversations loaded_cache),
        [Store.AllUsers]).
Proof.
  split; [reflexivity|]. split; [reflexivity|].
  apply (proj1 (freshness_window loaded_cache 100 store_up)
           [user_without_plan]); reflexivity.
Defined.

(** X16. After the refresh button has cleared the cache, a run of the
    overview page sends the users query first, whatever the clock reads and
    whatever was cached before.  If that query fails the page shows the
    error, sends nothing more and caches nothing.  If it succeeds the
    conversations query is sent, once: when it succeeds too the page shows
    the statistics of what the store holds now and both answers become the
    new snapshots; when it fails the page shows the error and only the
    users answer is kept. *)
Theorem overview_after_refresh (c : Cache.t) (now : Z) (db : Store.t) :
  overview_page now db (Cache.clear c)
  = match Store.users db with
    | Raise message =>
        (ErrorMessage
           ("❌ Erreur lors du chargement des données: " +:+ message),
         Cache.mk None None,
         [Store.AllUsers])
    | Ok users =>
        match Store.conversations db with
        | Raise message =>
            (ErrorMessage
               ("❌ Erreur lors du chargement des données: " +:+ message),
             Cache.mk (Some (Cache.mk_entry users now)) None,
             [Store.AllUsers; Store.AllConversations])
        | Ok conversations =>
            (Statistics (Overview.statistics users conversations),
             Cache.mk (Some (Cache.mk_entry users now))
                      (Some (Cache.mk_entry conversations now)),
             [Store.AllUsers; Store.AllConversations])
        end
    end.
Proof.
  unfold overview_page.
  destruct (Store.users db) as [users|message] eqn:Hu.
  - rewrite (load_users_reload now db (Cache.clear c) users eq_refl Hu).
    cbn [Cache.clear Cache.conversations].
    destruct (Store.conversations db) as [conversations|message] eqn:Hc.
    + rewrite (load_conversations_reload now db
                 (Cache.mk (Some (Cache.mk_entry users now)) None)
                 conversations eq_refl Hc).
      reflexivity.
    + rewrite (load_conversations_failure now db
                 (Cache.mk (Some (Cache.mk_entry users now)) None)
                 message eq_refl Hc).
      reflexivity.
  - rewrite (load_users_failure now db (Cache.clear c) message eq_refl Hu).
    reflexivity.
Qed.

Example overview_after_refresh_sample :
  overview_page 30 store_changed (Cache.clear loaded_cache)
  = (Statistics (Overview.statistics [] [goodbye_conversation]),
     Cache.mk (Some (Cache.mk_entry [] 30))
              (Some (Cache.mk_entry [goodbye_conversation] 30)),
     [Store.AllUsers; Store.AllConversations])
  /\ overview_page 30 store_down (Cache.clear loaded_cache)
     = (ErrorMessage
          "❌ Erreur lors du chargement des données: ServiceUnavailable",
        Cache.mk None None, [Store.AllUsers]).
Proof. split; reflexivity. Qed.

Lemma overview_page_hit (c : Cache.t) (now : Z) (db : Store.t)
    (users : list User.t) (conversations : list Conversation.t) :
  Cache.lookup now (Cache.users c) = Some users ->
  Cache.lookup now (Cache.conversations c) = Some conversations ->
  overview_page now db c
  = (Statistics (Overview.statistics users conversations), c, []).
Proof.
  intros Hu Hc. unfold overview_page.
  rewrite (load_users_hit now db c users Hu).
  rewrite (load_conversations_hit now db c conversations Hc).
  reflexivity.
Qed.

(** X17. While both snapshots are younger than 60 seconds the overview page
    sends no query and shows the statistics of the snapshots, whatever
    state the store is in: it does not fail when the store is out of reach
    and does not show what changed in the store meanwhile. *)
Theorem overview_from_cache (c : Cache.t) (now : Z) (db : Store.t)
    (users : list User.t) (conversations : list Conversation.t) :
  Cache.lookup now (Cache.users c) = Some users ->
  Cache.lookup now (Cache.conversations c) = Some conversations ->
  overview_page now db c
  = (Statistics (Overview.statistics users conversations), c, []).
Proof.
  intros Hu Hc. unfold overview_page.
  rewrite (load_users_hit now db c users Hu).
  rewrite (load_conversations_hit now db c conversations Hc).
  reflexivity.
Qed.

Lemma overview_from_cache_witness :
  Cache.lookup 59 (Cache.users loaded_cache) = Some [user_without_plan]
  /\ Cache.lookup 59 (Cache.conversations loaded_cache)
     = Some [hello_conversation; goodbye_conversation]
  /\ overview_page 59 store_down loaded_cache
     = (Statistics
          (Overview.statistics [user_without_plan]
             [hello_conversation; goodbye_conversation]),
        loaded_cache, []).
Proof.
  split; [reflexivity|]. split; [reflexivity|].
  apply (overview_from_cache loaded_cache 59 store_down); reflexivity.
Defined.

Lemma load_users_ok_entry now db c users c1 sent :
  load_users now db c = (Ok users, c1, sent) ->
  exists e, Cache.users c1 = Some e /\ Cache.value e = users.
Proof.
  intros H. apply load_users_inv in H. destruct H as [H _].
  apply cache_data_ok_slot in H. exact H.
Qed.

Lemma load_conversations_ok_entry now db c conversations c1 sent :
  load_conversations now db c = (Ok conversations, c1, sent) ->
  exists e, Cache.conversations c1 = Some e /\ Cache.value e = conversations.
Proof.
  intros H. apply load_conversations_inv in H. destruct H as [H _].
  apply cache_data_ok_slot in H. exact H.
Qed.

(** X18. When a run of the overview page has shown statistics, the cache
    it leaves holds the two snapshots the statistics were computed from,
    and every further run made while both are younger than 60 seconds
    shows the same statistics without a query. *)
Theorem overview_rerun (c c1 : Cache.t) (now : Z) (db : Store.t)
    (s : Overview.stats) (sent : list Store.query) :
  overview_page now db c = (Statistics s, c1, sent) ->
  exists eu ec,
    Cache.users c1 = Some eu
    /\ Cache.conversations c1 = Some ec
    /\ s = Overview.statistics (Cache.value eu) (Cache.value ec)
    /\ forall later db',
         (later - Cache.stored eu < 60)%Z ->
         (later - Cache.stored ec < 60)%Z ->
         overview_page later db' c1 = (Statistics s, c1, []).
Proof.
  unfold overview_page.
  destruct (load_users now db c) as [[r1 cu] sent1] eqn:L1.
  destruct r1 as [users|e]; [|discriminate].
  destruct (load_conversations now db cu) as [[r2 cc] sent2] eqn:L2.
  destruct r2 as [conversations|e]; [|discriminate].
  intros [= <- <- <-].
  destruct (load_users_ok_entry _ _ _ _ _ _ L1) as [eu [Heu Hvu]].
  destruct (load_conversations_ok_entry _ _ _ _ _ _ L2) as [ec [Hec Hvc]].
  apply load_conversations_inv in L2. destruct L2 as [_ Hframe].
  exists eu, ec. rewrite Hframe. repeat split; try assumption.
  - rewrite Hvu, Hvc. reflexivity.
  - intros later db' Hau Hac.
    fold (overview_page later db' cc).
    apply overview_page_hit.
    + rewrite Hframe, Heu, <- Hvu. apply lookup_fresh. unfold Cache.ttl. lia.
    + rewrite Hec, <- Hvc. apply lookup_fresh. unfold Cache.ttl. lia.
Qed.

Lemma overview_rerun_witness :
  overview_page 0 store_up empty_cache
  = (Statistics
       (Overview.statistics [user_without_plan]
          [hello_conversation; goodbye_conversation]),
     loaded_cache, [Store.AllUsers; Store.AllConversations])
  /\ exists eu ec,
       Cache.users loaded_cache = Some eu
       /\ Cache.conversations loaded_cache = Some ec
       /\ Overview.statistics [user_without_plan]
            [hello_conversation; goodbye_conversation]
          = Overview.statistics (Cache.value eu) (Cache.value ec)
       /\ forall later db',
            (later - Cache.stored eu < 60)%Z ->
            (later - Cache.stored ec < 60)%Z ->
            overview_page later db' loaded_cache
            = (Statistics
                 (Overview.statistics [user_without_plan]
                    [hello_conversation; goodbye_conversation]),
               loaded_cache, []).
Proof.
  split; [reflexivity|].
  apply (overview_rerun empty_cache loaded_cache 0 store_up _
           [Store.AllUsers; Store.AllConversations]).
  reflexivity.
Defined.

(** X19. When the users query succeeds and the conversations query fails
    in one run of the overview page, the page shows the error message, but
    the users snapshot just loaded is kept: a run within the next 60
    seconds sends the conversations query alone and, if it succeeds, shows
    the statistics of the kept users and the new conversations; if it fails
    again the page shows the new error and the cache stays as it was. *)
Theorem overview_partial_failure (c : Cache.t) (now : Z) (db : Store.t)
    (users : list User.t) (message : string) :
  Cache.lookup now (Cache.users c) = None ->
  Store.users db = Ok users ->
  Cache.lookup now (Cache.conversations c) = None ->
  Store.conversations db = Raise message ->
  let c1 := Cache.mk (Some (Cache.mk_entry users now))
                     (Cache.conversations c) in
  overview_page now db c
  = (ErrorMessage ("❌ Erreur lors du chargement des données: " +:+ message),
     c1, [Store.AllUsers; Store.AllConversations])
  /\ (forall later db' conversations,
       (now <= later < now + 60)%Z ->
       Store.conversations db' = Ok conversations ->
       overview_page later db' c1
       = (Statistics (Overview.statistics users conversations),
          Cache.mk (Some (Cache.mk_entry users now))
                   (Some (Cache.mk_entry conversations later)),
          [Store.AllConversations]))
  /\ (forall later db' message',
        (now <= later < now + 60)%Z ->
        Store.conversations db' = Raise message' ->
        overview_page later db' c1
        = (ErrorMessage
             ("❌ Erreur lors du chargement des données: " +:+ message'),
           c1, [Store.AllConversations])).
Proof.
  intros Hmu Hu Hmc Hc c1. subst c1.
  set (c1 := Cache.mk (Some (Cache.mk_entry users now))
                      (Cache.conversations c)).
  assert (Hhit : forall later db',
             (later < now + 60)%Z ->
             load_users later db' c1 = (Ok users, c1, [])).
  { intros later db' Hlt. apply load_users_hit.
    subst c1. cbn [Cache.users]. rewrite lookup_stored.
    destruct (Z.ltb_spec later (now + 60)); [reflexivity | lia]. }
  split; [|split].
  - unfold overview_page.
    rewrite (load_users_reload now db c users Hmu Hu). fold c1.
    rewrite (load_conversations_failure now db c1 message Hmc Hc).
    reflexivity.
  - intros later db' conversations [Hge Hlt] Hup. unfold overview_page.
    rewrite (Hhit later db' Hlt).
    rewrite (load_conversations_reload later db' c1 conversations);
      [reflexivity | | exact Hup].
    apply (lookup_none_later now); assumption.
  - intros later db' message' [Hge Hlt] Hdown. unfold overview_page.
    rewrite (Hhit later db' Hlt).
    rewrite (load_conversations_failure later db' c1 message');
      [reflexivity | | exact Hdown].
    apply (lookup_none_later now); assumption.
Qed.

Lemma overview_partial_failure_witness :
  Cache.lookup 0 (Cache.users empty_cache) = None
  /\ Store.users (Store.mk (Ok [user_without_plan]) (Raise "Timeout"))
     = Ok [user_without_plan]
  /\ overview_page 0 (Store.mk (Ok [user_without_plan]) (Raise "Timeout"))
       empty_cache
     = (ErrorMessage "❌ Erreur lors du chargement des données: Timeout",
        Cache.mk (Some (Cache.mk_entry [user_without_plan] 0)) None,
        [Store.AllUsers; Store.AllConversations]).
Proof.
  split; [reflexivity|]. split; [reflexivity|].
  apply (overview_partial_failure empty_cache 0
           (Store.mk (Ok [user_without_plan]) (Raise "Timeout"))
           [user_without_plan] "Timeout");
    reflexivity.
Defined.

(** ** Plan chart and plan choices *)

Section PlanChart.

Implicit Types (h : gmap string nat) (users : list User.t).

(** The loop never writes a zero: every count it holds is positive. *)
Lemma plan_counts_acc_positive users h :
  (forall k n, h !! k = Some n -> 0 < n) ->
  forall q n, fold_left Overview.count_plan users h !! q = Some n -> 0 < n.
Proof.
  revert h. induction users as [|u us IH]; intros h Hpos q n; simpl.
  - apply Hpos.
  - apply IH. intros k m. unfold Overview.count_plan.
    destruct (decide (default "unknown" (User.plan u) = k)) as [->|Hne].
    + rewrite lookup_insert_eq. intros [= <-]. lia.
    + rewrite lookup_insert_ne by exact Hne. apply Hpos.
Qed.

Lemma plan_counts_positive users q n :
  Overview.plan_counts users !! q = Some n -> 0 < n.
Proof.
  apply plan_counts_acc_positive. intros k m. rewrite lookup_empty.
  discriminate.
Qed.

Lemma plan_counts_bucket users q :
  Py.get_count (Overview.plan_counts users) q
  = count_if (fun u => String.eqb (default "unknown" (User.plan u)) q) users.
Proof.
  unfold Overview.plan_counts. rewrite plan_counts_acc_bucket.
  unfold Py.get_count at 1. rewrite lookup_empty. reflexivity.
Qed.

Lemma count_if_positive {A} (p : A -> bool) (l : list A) :
  0 < count_if p l <-> exists x, In x l /\ p x = true.
Proof.
  unfold count_if. induction l as [|x l IH]; simpl.
  - split; [lia | intros [x [[] _]]].
  - destruct (p x) eqn:P; simpl.
    + split; [eauto | lia].
    + rewrite IH. split.
      * intros [y [Hy Py]]. eauto.
      * intros [y [[<-|Hy] Py]]; [congruence | eauto].
Qed.

End PlanChart.

(** X20. The plan chart of the overview page has a bar exactly for each
    plan the select box of the users page offers after "Tous"; every bar
    counts at least one user and at most all of them, and the chart of an
    empty snapshot has no bar. *)
Theorem plan_chart_matches_choices (users : list User.t) :
  (forall p,
     is_Some (Overview.plan_counts users !! p)
     <-> In p (tail (UsersPage.plan_options users)))
  /\ (forall p n,
        Overview.plan_counts users !! p = Some n ->
        1 <= n <= length users)
  /\ Overview.plan_counts [] = ∅.
Proof.
  split; [|split].
  - intros p. rewrite plan_options_In. split.
    + intros [n Hn].
      pose proof (plan_counts_positive users p n Hn) as Hpos.
      assert (G : 0 < Py.get_count (Overview.plan_counts users) p)
        by (unfold Py.get_count; rewrite Hn; exact Hpos).
      rewrite plan_counts_bucket in G. apply count_if_positive in G.
      destruct G as [u [Hu Hp]]. exists u. split; [exact Hu|].
      apply String.eqb_eq. exact Hp.
    + intros [u [Hu Hp]].
      assert (G : 0 < Py.get_count (Overview.plan_counts users) p).
      { rewrite plan_counts_bucket. apply count_if_positive.
        exists u. split; [exact Hu|]. apply String.eqb_eq. exact Hp. }
      unfold Py.get_count in G.
      destruct (Overview.plan_counts users !! p) as [n|]; [eauto|].
      simpl in G. lia.
  - intros p n Hn. split.
    + apply (plan_counts_positive users p n Hn).
    + assert (E : n = Py.get_count (Overview.plan_counts users) p)
        by (unfold Py.get_count; rewrite Hn; reflexivity).
      rewrite E, plan_counts_bucket. unfold count_if.
      apply sublist_length, filter_sublist.
  - reflexivity.
Qed.

(** ** Conversations page: drawing the messages *)

Section DisplayMessages.

Variable hash : string -> Z.

Implicit Types (m : Message.t) (ms : list Message.t) (cid : string).

Lemma append_cancel_l (s a b : string) : s +:+ a = s +:+ b -> a = b.
Proof.
  induction s as [|c s IH]; [auto|].
  rewrite !append_cons. intros [= H]. auto.
Qed.

Lemma pretty_digit_not_underscore (d : N) :
  Ascii.eqb "_" (pretty_N_char d) = false.
Proof. unfold pretty_N_char. repeat case_match; reflexivity. Qed.

Lemma pretty_N_go_no_underscore (x : N) (s : string) :
  occurs "_" s = false -> occurs "_" (pretty_N_go x s) = false.
Proof.
  revert s. induction (N.lt_wf_0 x) as [x _ IH]; intros s Hs.
  destruct (decide (x = 0)%N) as [->|Hx].
  - rewrite pretty_N_go_0. exact Hs.
  - rewrite pretty_N_go_step by lia. apply IH.
    + apply N.div_lt; lia.
    + cbn [occurs]. rewrite pretty_digit_not_underscore. exact Hs.
Qed.

(** The decimal writing of an index has no underscore. *)
Lemma pretty_nat_no_underscore (n : nat) : occurs "_" (pretty n) = false.
Proof.
  change (occurs "_" (if decide (N.of_nat n = 0)%N then "0"
                      else pretty_N_go (N.of_nat n) "") = false).
  destruct (decide _); [reflexivity|].
  apply pretty_N_go_no_underscore. reflexivity.
Qed.

(** Two strings cut at the first occurrence of a character have the same
    part before it. *)
Lemma split_at_char (c : ascii) (a b x y : string) :
  occurs c a = false -> occurs c b = false ->
  a +:+ String c x = b +:+ String c y -> a = b.
Proof.
  revert b. induction a as [|d a IH]; intros [|e b] Ha Hb H.
  - reflexivity.
  - rewrite append_nil, append_cons in H. injection H as -> _.
    cbn [occurs] in Hb. rewrite Ascii.eqb_refl in Hb. discriminate.
  - rewrite append_nil, append_cons in H. injection H as <- _.
    cbn [occurs] in Ha. rewrite Ascii.eqb_refl in Ha. discriminate.
  - rewrite !append_cons in H. injection H as -> H.
    cbn [occurs] in Ha, Hb.
    apply orb_false_iff in Ha. apply orb_false_iff in Hb.
    f_equal. apply (IH b); tauto.
Qed.

(** In one conversation the key tells the position of the message. *)
Lemma message_key_index cid (i j : nat) (content1 content2 : string) :
  Display.message_key hash cid i content1
  = Display.message_key hash cid j content2 -> i = j.
Proof.
  unfold Display.message_key. intros H.
  apply append_cancel_l in H. apply append_cancel_l in H.
  apply append_cancel_l in H.
  change (pretty i +:+ String "_" (pretty (hash content1))
          = pretty j +:+ String "_" (pretty (hash content2))) in H.
  apply split_at_char in H; try apply pretty_nat_no_underscore.
  apply (inj pretty) in H. exact H.
Qed.

Lemma display_message_keys m (i : nat) cid :
  omap element_key (Display.display_message hash m i cid)
  = if long_reply m
    then [Display.message_key hash cid i (default "N/A" (Message.content m))]
    else [].
Proof.
  unfold Display.display_message, long_reply.
  destruct (default false (Message.isUser m)); [reflexivity|].
  cbn [negb andb].
  destruct (Nat.ltb 500 _); reflexivity.
Qed.


Lemma keys_from_index (start : nat) cid ms (k : string) :
  In k (omap element_key (Display.display_messages_from hash start cid ms)) ->
  exists i content,
    start <= i /\ k = Display.message_key hash cid i content.
Proof.
  revert start. induction ms as [|m ms IH]; intros start; simpl.
  - intros [].
  - rewrite omap_app, in_app_iff, display_message_keys.
    intros [Hk|Hk].
    + destruct (long_reply m); [|destruct Hk].
      destruct Hk as [<-|[]]. eauto.
    + apply IH in Hk. destruct Hk as [i [content [Hi Hk]]].
      exists i, content. split; [lia | exact Hk].
Qed.

Lemma keys_from_NoDup (start : nat) cid ms :
  NoDup (omap element_key (Display.display_messages_from hash start cid ms)).
Proof.
  revert start. induction ms as [|m ms IH]; intros start; simpl.
  - constructor.
  - rewrite omap_app, display_message_keys.
    destruct (long_reply m); [|apply IH].
    simpl. constructor; [|apply IH].
    rewrite list_elem_of_In. intros Hin. apply keys_from_index in Hin.
    destruct Hin as [i [content [Hi Hk]]].
    apply message_key_index in Hk. lia.
Qed.



End DisplayMessages.

Example str_len_sample :
  Display.str_len "Créé le" = 7 /\ String.length "Créé le" = 9.
Proof. split; reflexivity. Qed.

Example display_message_sample :
  Display.display_message (fun _ => (-42)%Z)
    (Message.mk (Some "Bonjour") None) 3 "c-7"
  = [Display.markdown "**🤖 IA:**"; Display.success "Bonjour"]
  /\ Display.message_key (fun _ => (-42)%Z) "c-7" 12 "x" = "msg_c-7_12_-42".
Proof. split; reflexivity. Qed.

(** X21. In the expander of one conversation no two text areas get the
    same widget key, whatever the hash function gives and whatever the
    messages are: the position of the message is part of the key and can
    be read back from it. *)
Theorem message_keys_distinct (hash : string -> Z) (conv : Conversation.t) :
  NoDup (omap element_key (Display.conversation_messages hash conv))
  /\ forall conversation_id i j content1 content2,
       Display.message_key hash conversation_id i content1
       = Display.message_key hash conversation_id j content2 ->
       i = j.
Proof.
  split.
  - unfold Display.conversation_messages. apply keys_from_NoDup.
  - intros conversation_id i j content1 content2.
    apply message_key_index.
Qed.


(** ** Users page: the conversations of one user *)

Example summarize_sample :
  let c := hello_conversation in
  UserDetail.summarize [] = UserDetail.no_conversation
  /\ UserDetail.summarize [c; c; c; c; c]
     = UserDetail.listed [c; c; c; c; c] None
  /\ UserDetail.summarize [c; c; c; c; c; c]
     = UserDetail.listed [c; c; c; c; c] (Some 1).
Proof. repeat split. Qed.

(** X23. Under a user, no conversation goes unaccounted for: the line
    "Aucune conversation" is written exactly when the user has none;
    otherwise the first conversations are listed, five at most, in the
    order of the query, and those not listed are counted in the "autres"
    line, which is written exactly when some are not listed and never
    counts zero. *)
Theorem summarize_accounts (user_conversations : list Conversation.t) :
  (UserDetail.summarize user_conversations = UserDetail.no_conversation
   <-> user_conversations = [])
  /\ forall shown others,
       UserDetail.summarize user_conversations
       = UserDetail.listed shown others ->
       shown <> []
       /\ length shown <= 5
       /\ shown ++ skipn 5 user_conversations = user_conversations
       /\ length shown + default 0 others = length user_conversations
       /\ others <> Some 0
       /\ (others = None <-> shown = user_conversations).
Proof.
  split.
  - destruct user_conversations; simpl; split; congruence.
  - intros shown others H.
    destruct user_conversations as [|c l]; [discriminate|].
    remember (c :: l) as uc eqn:Euc.
    assert (E : UserDetail.summarize uc
                = UserDetail.listed (firstn 5 uc)
                    (if (5 <? length uc)%nat
                     then Some (length uc - 5)%nat else None))
      by (rewrite Euc; reflexivity).
    rewrite E in H. injection H as <- <-.
    assert (Hlen : length (firstn 5 uc) = Nat.min 5 (length uc))
      by apply length_firstn.
    assert (Hcat : firstn 5 uc ++ skipn 5 uc = uc) by apply firstn_skipn.
    split; [rewrite Euc; simpl; discriminate|].
    split; [lia|]. split; [exact Hcat|].
    destruct (Nat.ltb_spec 5 (length uc)) as [Hgt|Hle]; simpl.
    + split; [lia|]. split; [intros [= Hz]; lia|].
      split; [discriminate|]. intros Hall. rewrite Hall in Hlen. lia.
    + split; [lia|]. split; [discriminate|].
      split; [|reflexivity]. intros _. apply firstn_all2. exact Hle.
Qed.

Lemma summarize_accounts_witness :
  UserDetail.summarize
    [hello_conversation; goodbye_conversation]
  = UserDetail.listed [hello_conversation; goodbye_conversation] None
  /\ (length [hello_conversation; goodbye_conversation]
      + default 0 (@None nat)
      = length [hello_conversation; goodbye_conversation]).
Proof.
  split; [reflexivity|].
  apply (proj2 (summarize_accounts
                  [hello_conversation; goodbye_conversation])
           [hello_conversation; goodbye_conversation] None eq_refl).
Defined.
